(** * Flask text-intelligence starter: the request pipeline of [app.py]

    A shallow embedding of the validation, option mapping, error
    classification and route handlers of [src/app.py], with the facts the
    specification states about them.

    Conventions of the embedding.
    - A Python [str] is a Rocq [string]; a character is read as the code
      point of the same number (U+0000 .. U+00FF).  On that range
      [str.strip], [str.lower], [str.startswith] and [in] are embedded
      exactly as CPython computes them.
    - A Python value that came out of a JSON parser is a [json]; a Python
      [dict] with string keys is a [gmap string json].
    - Flask's [request.args] is a multi-dict: an association list whose
      [get] returns the first value stored under a key.
    - An exception is the pair of its class name and of [str(e)].
    - The remote analysis SDK is a parameter of the handler; every call to
      it is recorded in the trace the handler returns. *)

From Stdlib Require Import ZArith NArith Ascii String.
From Stdlib Require Import Floats.SpecFloat.
From stdpp Require Import base strings gmap list.

Local Set Warnings "-register-all".
Local Open Scope string_scope.

(** ** Python strings *)

Module PyStr.

Definition code (a : ascii) : N := N_of_ascii a.

(** [str.isspace] on one character: TAB..CR, FS..US, SPACE, NEL, NBSP. *)
Definition isspace (a : ascii) : bool :=
  let c := code a in
  ((9 <=? c) && (c <=? 13) || (28 <=? c) && (c <=? 32)
   || (c =? 133) || (c =? 160))%N.

(** The lower-case mapping of one character: A..Z, and the Latin-1
    capitals U+00C0..U+00DE except the multiplication sign U+00D7. *)
Definition lower_char (a : ascii) : ascii :=
  let c := code a in
  if ((65 <=? c) && (c <=? 90)
      || (192 <=? c) && (c <=? 222) && negb (c =? 215))%N
  then ascii_of_N (c + 32)
  else a.

(** [s.lower()] *)
Fixpoint lower (s : string) : string :=
  match s with
  | EmptyString => EmptyString
  | String a s' => String (lower_char a) (lower s')
  end.

(** [s.lstrip()] *)
Fixpoint lstrip (s : string) : string :=
  match s with
  | EmptyString => EmptyString
  | String a s' => if isspace a then lstrip s' else s
  end.

(** [s.rstrip()] *)
Fixpoint rstrip (s : string) : string :=
  match s with
  | EmptyString => EmptyString
  | String a s' =>
      match rstrip s' with
      | EmptyString => if isspace a then EmptyString else String a EmptyString
      | r => String a r
      end
  end.

(** [s.strip()] *)
Definition strip (s : string) : string := rstrip (lstrip s).

(** [s.startswith(p)] *)
Fixpoint startswith (p s : string) : bool :=
  match p, s with
  | EmptyString, _ => true
  | String a p', String b s' => if decide (a = b) then startswith p' s' else false
  | String _ _, EmptyString => false
  end.

(** [s.startswith((p1, p2, ...))] *)
Definition startswith_any (ps : list string) (s : string) : bool :=
  existsb (fun p => startswith p s) ps.

(** [needle in s] *)
Fixpoint contains (needle s : string) : bool :=
  startswith needle s ||
  match s with
  | EmptyString => false
  | String _ s' => contains needle s'
  end.

(** Truth value of a string: [bool(s)]. *)
Definition nonempty (s : string) : bool :=
  match s with EmptyString => false | String _ _ => true end.

(** Every character of [s] is white space. *)
Fixpoint all_space (s : string) : bool :=
  match s with
  | EmptyString => true
  | String a s' => isspace a && all_space s'
  end.

End PyStr.

(** ** Python values *)

Inductive json : Type :=
  | JNull
  | JBool (b : bool)
  | JInt (n : Z)
  | JFloat (f : spec_float)
  | JStr (s : string)
  | JList (l : list json)
  | JObj (d : gmap string json).

Abbreviation pydict := (gmap string json).

(** [type(v).__name__] *)
Definition type_name (v : json) : string :=
  match v with
  | JNull => "NoneType"
  | JBool _ => "bool"
  | JInt _ => "int"
  | JFloat _ => "float"
  | JStr _ => "str"
  | JList _ => "list"
  | JObj _ => "dict"
  end.

(** [bool(v)]: the test an [if v:] performs. *)
Definition truthy (v : json) : bool :=
  match v with
  | JNull => false
  | JBool b => b
  | JInt n => negb (n =? 0)%Z
  | JFloat (S754_zero _) => false
  | JFloat _ => true
  | JStr s => PyStr.nonempty s
  | JList l => match l with [] => false | _ :: _ => true end
  | JObj d => negb (bool_decide (d = ∅))
  end.

(** ** Exceptions *)

Record exn : Type := Exn { exn_class : string; exn_str : string }.

(** The message CPython gives an [AttributeError] on an object of class
    [cls]. *)
Definition attribute_error (cls attr : string) : exn :=
  Exn "AttributeError"
      ("'" +:+ cls +:+ "' object has no attribute '" +:+ attr +:+ "'").

Definition AttributeError (v : json) (attr : string) : exn :=
  attribute_error (type_name v) attr.

(** Fallible pure code: the exception raised, or the value returned. *)
Definition res (A : Type) : Type := exn + A.

Definition raise {A} (e : exn) : res A := inl e.

#[export] Instance res_ret : MRet res := fun A a => inr a.
#[export] Instance res_bind : MBind res := fun A B k m =>
  match m with
  | inl e => inl e
  | inr a => k a
  end.

(** [v.get(key, dflt)]: a dict answers, any other value has no [get]. *)
Definition py_get_or (v : json) (key : string) (dflt : json) : res json :=
  match v with
  | JObj d => mret (default dflt (d !! key))
  | _ => raise (AttributeError v "get")
  end.

(** [v.get(key)]: the default is [None]. *)
Definition py_get (v : json) (key : string) : res json :=
  py_get_or v key JNull.

(** [v.startswith(prefixes)] *)
Definition py_startswith (v : json) (ps : list string) : res bool :=
  match v with
  | JStr s => mret (PyStr.startswith_any ps s)
  | _ => raise (AttributeError v "startswith")
  end.

(** [v.strip()] *)
Definition py_strip (v : json) : res string :=
  match v with
  | JStr s => mret (PyStr.strip s)
  | _ => raise (AttributeError v "strip")
  end.

(** ** Input validation: [validate_text_input] *)

Definition MSG_NEITHER : string :=
  "Request must contain either 'text' or 'url' field".
Definition MSG_BOTH : string :=
  "Request must contain either 'text' or 'url', not both".
Definition MSG_URL_FORMAT : string := "Invalid URL format".
Definition MSG_EMPTY_TEXT : string := "Text content cannot be empty".

(** The pair [(request_dict, error_message)] the function returns; a
    component that is [None] in Python is [None] here. *)
Definition validate_text_input (body : json)
  : res (option pydict * option string) :=
  text ← py_get body "text";
  url ← py_get body "url";
  if negb (truthy text) && negb (truthy url) then
    mret (None, Some MSG_NEITHER)
  else if truthy text && truthy url then
    mret (None, Some MSG_BOTH)
  else if truthy url then
    ok ← py_startswith url ["http://"; "https://"];
    if negb ok then mret (None, Some MSG_URL_FORMAT)
    else mret (Some {[ "url" := url ]}, None)
  else
    stripped ← py_strip text;
    if negb (PyStr.nonempty stripped) then mret (None, Some MSG_EMPTY_TEXT)
    else mret (Some {[ "text" := text ]}, None).

(** ** Option mapping: [build_deepgram_options] *)

(** [request.args]: the pairs of the query string, in order. *)
Abbreviation query := (list (string * string)).

(** [query_params.get(key)]: the first value stored under [key]. *)
Fixpoint args_get (query_params : query) (key : string) : option string :=
  match query_params with
  | [] => None
  | (k, v) :: rest => if decide (k = key) then Some v else args_get rest key
  end.

Definition MSG_V1 : string :=
  "Summarization v1 is no longer supported. Please use v2 or true.".

(** [if query_params.get(key) == 'true': options[key] = True] *)
Definition set_flag (query_params : query) (key : string) (options : pydict)
  : pydict :=
  if decide (args_get query_params key = Some "true")
  then <[ key := JBool true ]> options
  else options.

(** The pair [(options, error_message)] the function returns. *)
Definition build_deepgram_options (query_params : query)
  : option pydict * option string :=
  let options : pydict :=
    {[ "language" := JStr (default "en" (args_get query_params "language")) ]} in
  let summarize := args_get query_params "summarize" in
  let after_summarize : string + pydict :=
    if decide (summarize = Some "true") then
      inr (<[ "summarize" := JBool true ]> options)
    else if decide (summarize = Some "v2") then
      inr (<[ "summarize" := JStr "v2" ]> options)
    else if decide (summarize = Some "v1") then
      inl MSG_V1
    else inr options in
  match after_summarize with
  | inl msg => (None, Some msg)
  | inr options =>
      let options := set_flag query_params "topics" options in
      let options := set_flag query_params "sentiment" options in
      let options := set_flag query_params "intents" options in
      (Some options, None)
  end.

(** ** Error envelope: [format_error_response] *)

Definition format_error_response (error_type code message : string) : json :=
  JObj {[ "error" :=
          JObj {[ "type" := JStr error_type;
                  "code" := JStr code;
                  "message" := JStr message;
                  "details" := JObj ∅ ]} ]}.

(** ** Handlers and their effects *)

(** What a handler returns: [(jsonify(body), status)]. *)
Record http_response : Type := Response { body : json; status : Z }.

(** [jsonify]: the value becomes the body of the response as it is. *)
Definition jsonify (v : json) : json := v.

(** What Flask hands to a handler. [get_json] is the outcome of
    [request.get_json()], which raises when the body does not parse. *)
Record flask_request : Type := Request {
  is_json : bool;
  get_json : res json;
  args : query
}.

(** The [results] attribute of an SDK response object. *)
Record sdk_results : Type := SdkResults {
  results_to_dict : option (res json); (* outcome of [to_dict()], when it has one *)
  results_dict : res json              (* outcome of [dict(results)] *)
}.

(** An SDK response object, as far as [analyze] looks at it. *)
Record sdk_response : Type := SdkResponse {
  resp_class : string;                 (* its class name *)
  resp_to_dict : bool;                 (* [hasattr(response_data, 'to_dict')] *)
  resp_model_dump : option (res json); (* outcome of [model_dump()], when it has one *)
  resp_results : option sdk_results    (* attribute [results], when it has one *)
}.

(** What a handler does besides returning. *)
Inductive event : Type :=
  | EvPrint (line : string)
  | EvTraceback
  | EvRemoteCall (request : option pydict) (options : pydict).

Definition is_remote_call (ev : event) : bool :=
  match ev with EvRemoteCall _ _ => true | _ => false end.

(** A handler computation: the events so far, and an exception or a value. *)
Definition M (A : Type) : Type := list event * res A.

#[export] Instance M_ret : MRet M := fun A a => ([], inr a).
#[export] Instance M_bind : MBind M := fun A B k m =>
  match m with
  | (tr, inl e) => (tr, inl e)
  | (tr, inr a) => let '(tr', r) := k a in ((tr ++ tr')%list, r)
  end.

Definition emit (ev : event) : M unit := ([ev], inr tt).
Definition lift {A} (r : res A) : M A := ([], r).

(** [try: m  except Exception as e: h e] *)
Definition try_except {A} (m : M A) (h : exn → M A) : M A :=
  match m with
  | (tr, inl e) => let '(tr', r) := h e in ((tr ++ tr')%list, r)
  | (tr, inr a) => (tr, inr a)
  end.

Definition trace {A} (m : M A) : list event := m.1.
Definition outcome {A} (m : M A) : res A := m.2.

(** [if error_msg: return on_error(error_msg)], else go on. *)
Definition if_error {A} (error_msg : option string)
    (on_error : string → M A) (otherwise : M A) : M A :=
  match error_msg with
  | Some msg => if PyStr.nonempty msg then on_error msg else otherwise
  | None => otherwise
  end.

(** The success branch of [analyze]: the SDK object becomes [{"results": ...}]. *)
Definition format_result (response_data : sdk_response) : res json :=
  if resp_to_dict response_data then
    match resp_results response_data with
    | None => raise (attribute_error (resp_class response_data) "results")
    | Some results =>
        match results_to_dict results with
        | Some to_dict => d ← to_dict; mret (JObj {[ "results" := d ]})
        | None => mret (JObj {[ "results" := JObj ∅ ]})
        end
    end
  else
    match resp_model_dump response_data with
    | Some model_dump =>
        result_data ← model_dump;
        r ← py_get_or result_data "results" (JObj ∅);
        mret (JObj {[ "results" := r ]})
    | None =>
        match resp_results response_data with
        | Some results => d ← results_dict results; mret (JObj {[ "results" := d ]})
        | None => mret (JObj {[ "results" := JObj ∅ ]})
        end
    end.

(** The [except Exception as e] block of [analyze]: the code and the status
    chosen from [str(e).lower()]. *)
Definition classify (e : exn) : string * Z :=
  let error_code := "INVALID_TEXT" in
  let status_code := 500%Z in
  let msg := PyStr.lower (exn_str e) in
  if PyStr.contains "text" msg then ("INVALID_TEXT", 400%Z)
  else if PyStr.contains "url" msg then ("INVALID_URL", 400%Z)
  else if PyStr.contains "too long" msg then ("TEXT_TOO_LONG", 400%Z)
  else (error_code, status_code).

Definition analyze_except (e : exn) : M http_response :=
  _ ← emit (EvPrint ("Text Intelligence Error: " +:+ exn_str e));
  _ ← emit EvTraceback;
  let error_message := exn_str e in
  let '(error_code, status_code) := classify e in
  let error :=
    format_error_response "processing_error" error_code
      (if decide (status_code = 400%Z) then error_message
       else "Text processing failed") in
  mret (Response (jsonify error) status_code).

Section Routes.

(** The collaborators of the routes. *)
Variable deepgram_analyze : option pydict → pydict → res sdk_response.
Variable open_deepgram_toml : res string.
Variable toml_load : string → res pydict.

(** [deepgram.read.v1.text.analyze(request=request_dict, **options)] *)
Definition call_remote (request_dict : option pydict) (options : option pydict)
  : M sdk_response :=
  match options with
  | Some options =>
      _ ← emit (EvRemoteCall request_dict options);
      lift (deepgram_analyze request_dict options)
  | None =>
      lift (raise (Exn "TypeError"
              "argument after ** must be a mapping, not NoneType"))
  end.

(** The [try] block of [analyze]. *)
Definition analyze_try (request : flask_request) : M http_response :=
  if negb (is_json request) then
    let error :=
      format_error_response "validation_error" "INVALID_TEXT"
        "Request body must be JSON" in
    mret (Response (jsonify error) 400)
  else
    body ← lift (get_json request);
    '(request_dict, error_msg) ← lift (validate_text_input body);
    if_error error_msg
      (fun error_msg =>
         let error :=
           format_error_response "validation_error"
             (if PyStr.contains "text" (PyStr.lower error_msg)
              then "INVALID_TEXT" else "INVALID_URL")
             error_msg in
         mret (Response (jsonify error) 400))
      (let '(options, error_msg) := build_deepgram_options (args request) in
       if_error error_msg
         (fun error_msg =>
            let error :=
              format_error_response "validation_error" "INVALID_TEXT"
                error_msg in
            mret (Response (jsonify error) 400))
         (response_data ← call_remote request_dict options;
          result ← lift (format_result response_data);
          mret (Response (jsonify result) 200))).

(** [POST /text-intelligence/analyze] *)
Definition analyze (request : flask_request) : M http_response :=
  try_except (analyze_try request) analyze_except.

(** [GET /health] *)
Definition health : M http_response :=
  mret (Response
          (jsonify (JObj {[ "status" := JStr "ok";
                            "service" := JStr "text-intelligence" ]}))
          200).

Definition metadata_error (message : string) : json :=
  JObj {[ "error" := JStr "INTERNAL_SERVER_ERROR";
          "message" := JStr message ]}.

(** The [try] block of [get_metadata]. *)
Definition get_metadata_try : M http_response :=
  content ← lift open_deepgram_toml;
  config ← lift (toml_load content);
  match config !! "meta" with
  | None =>
      mret (Response
              (jsonify (metadata_error "Missing [meta] section in deepgram.toml"))
              500)
  | Some meta => mret (Response (jsonify meta) 200)
  end.

(** The two [except] clauses of [get_metadata], tried in order. *)
Definition get_metadata_except (e : exn) : M http_response :=
  if decide (exn_class e = "FileNotFoundError") then
    mret (Response (jsonify (metadata_error "deepgram.toml file not found")) 500)
  else
    _ ← emit (EvPrint ("Error reading metadata: " +:+ exn_str e));
    mret (Response
            (jsonify (metadata_error
               ("Failed to read metadata from deepgram.toml: " +:+ exn_str e)))
            500).

(** [GET /api/metadata] *)
Definition get_metadata : M http_response :=
  try_except get_metadata_try get_metadata_except.

(** The route table: the view bound to a method and a path, if any.  Flask
    adds HEAD to every route that lists GET and runs the same view. *)
Definition dispatch (method path : string) (request : flask_request)
  : option (M http_response) :=
  if decide (method = "POST" ∧ path = "/text-intelligence/analyze") then
    Some (analyze request)
  else if decide ((method = "GET" ∨ method = "HEAD") ∧ path = "/health") then
    Some health
  else if decide ((method = "GET" ∨ method = "HEAD")
                  ∧ path = "/api/metadata") then
    Some get_metadata
  else None.

End Routes.

(** ** Start-up: [load_api_key] *)

(** [os.environ] *)
Abbreviation environ := (gmap string string).

(** The line feed. *)
Definition NL : string := String (ascii_of_N 10) EmptyString.

(** A text given to [print], as its code points. *)
Definition points (s : string) : list N :=
  List.map PyStr.code (list_ascii_of_string s).

(** What [load_api_key] prints before it gives up, one entry for each
    [print]; the first text starts with a line feed and the three
    characters U+201A, U+00F9, U+00E5. *)
Definition API_KEY_HELP : list (list N) :=
  [ ([10; 8218; 249; 229]%N
     ++ points (" ERROR: Deepgram API key not found!" +:+ NL))%list;
    points ("Please set your API key using one of these methods:" +:+ NL);
    points "1. Create a .env file (recommended):";
    points ("   DEEPGRAM_API_KEY=your_api_key_here" +:+ NL);
    points "2. Environment variable:";
    points ("   export DEEPGRAM_API_KEY=your_api_key_here" +:+ NL);
    points ("Get your API key at: https://console.deepgram.com" +:+ NL) ].

Definition API_KEY_REQUIRED : exn :=
  Exn "ValueError" "DEEPGRAM_API_KEY environment variable is required".

(** What was printed, and the key or the exception.  [not api_key] holds
    for [None] and for the empty string. *)
Definition load_api_key (env : environ) : list (list N) * res string :=
  match env !! "DEEPGRAM_API_KEY" with
  | Some api_key =>
      if negb (PyStr.nonempty api_key)
      then (API_KEY_HELP, raise API_KEY_REQUIRED)
      else ([], inr api_key)
  | None => (API_KEY_HELP, raise API_KEY_REQUIRED)
  end.

(** ** Vocabulary of the statements *)

(** The value stored under [key], [None] when the key is missing: what
    [body.get(key)] returns. *)
Definition field (d : pydict) (key : string) : json := default JNull (d !! key).

(** A field is given when its value is truthy: [None], [""], [0], [false],
    [[]] and [{}] count as not given. *)
Definition given (d : pydict) (key : string) : bool := truthy (field d key).

Definition SCHEMES : list string := ["http://"; "https://"].

(** The messages validation can return. *)
Definition validation_messages : list string :=
  [MSG_NEITHER; MSG_BOTH; MSG_URL_FORMAT; MSG_EMPTY_TEXT].

(** The acceptance condition in the words of the specification: exactly
    one of the two keys is present, a present text is not blank, a present
    url carries an accepted scheme. *)
Definition present (d : pydict) (key : string) : bool :=
  bool_decide (is_Some (d !! key)).

Definition accepted_as_specified (d : pydict) : Prop :=
  xorb (present d "text") (present d "url") = true ∧
  (∀ s, d !! "text" = Some (JStr s) → PyStr.strip s ≠ "") ∧
  (∀ u, d !! "url" = Some (JStr u) → PyStr.startswith_any SCHEMES u = true).

(** The request reached the handler with a JSON body that parsed to [body]. *)
Definition json_request (request : flask_request) (body : json) : Prop :=
  is_json request = true ∧ get_json request = inr body.

Definition validation_error_response (code msg : string) : M http_response :=
  ([], inr (Response (format_error_response "validation_error" code msg) 400)).

(** What the [except] block answers. *)
Definition processing_error_response (e : exn) : http_response :=
  Response
    (format_error_response "processing_error" (classify e).1
       (if decide ((classify e).2 = 400%Z) then exn_str e
        else "Text processing failed"))
    (classify e).2.

Definition FLAGS : list string := ["topics"; "sentiment"; "intents"].

Definition OPTION_KEYS : list string := "language" :: "summarize" :: FLAGS.

(** The handler got as far as the remote call, which raised [e]. *)
Definition remote_fault (remote : option pydict → pydict → res sdk_response)
    (request : flask_request) (e : exn) : Prop :=
  ∃ body rd o,
    json_request request body
    ∧ validate_text_input body = inr (rd, None)
    ∧ build_deepgram_options (args request) = (Some o, None)
    ∧ remote rd o = inl e.

(** A remote service that raises [e] whatever it is asked. *)
Definition faulting (e : exn) : option pydict → pydict → res sdk_response :=
  fun _ _ => inl e.

(** [{"text": "hello"}] posted as JSON with the query [q]. *)
Definition hello_request (q : query) : flask_request :=
  Request true (inr (JObj {[ "text" := JStr "hello" ]})) q.

(** A fault whose message holds all three needles. *)
Definition muddled_fault : exn :=
  Exn "ApiError" "The URL of the Text is too long".

(** The value under [key] of the error envelope in a response body. *)
Definition envelope_field (b : json) (key : string) : option json :=
  match b with
  | JObj d =>
      match d !! "error" with
      | Some (JObj e) => e !! key
      | _ => None
      end
  | _ => None
  end.

Definition too_long_fault : exn := Exn "ApiError" "Payload Too Long".

Definition unrelated_fault : exn := Exn "ApiError" "Connection reset by peer".

(** The handler refuses the request: the body is not JSON, or validation
    returns a message, or validation passes and option mapping returns a
    message. *)
Definition rejected (request : flask_request) : Prop :=
  is_json request = false
  ∨ (∃ body rd msg,
       json_request request body
       ∧ validate_text_input body = inr (rd, Some msg))
  ∨ (∃ body rd o msg,
       json_request request body
       ∧ validate_text_input body = inr (rd, None)
       ∧ build_deepgram_options (args request) = (o, Some msg)).

(** The value under [key] of a response body that is an object. *)
Definition body_field (b : json) (key : string) : option json :=
  match b with
  | JObj d => d !! key
  | _ => None
  end.

Definition ENVELOPE_KEYS : gset string :=
  {[ "type"; "code"; "message"; "details" ]}.

(** An answer of the analyze route that is not a success. *)
Definition error_answer (r : http_response) : Prop :=
  ∃ ty code msg,
    (ty = "validation_error" ∧ status r = 400%Z
     ∨ ty = "processing_error" ∧ (status r = 400%Z ∨ status r = 500%Z))
    ∧ body r = format_error_response ty code msg.

(** A success of the analyze route. *)
Definition success_answer (r : http_response) : Prop :=
  status r = 200%Z ∧ ∃ results, body r = JObj {[ "results" := results ]}.

(** [isinstance(v, str)] *)
Definition is_str (v : json) : bool :=
  match v with JStr _ => true | _ => false end.

(** What the [except] block does before it answers. *)
Definition except_trace (e : exn) : list event :=
  [EvPrint ("Text Intelligence Error: " +:+ exn_str e); EvTraceback].

(** The number of calls of the remote service in a trace. *)
Definition count_calls (tr : list event) : nat :=
  length (List.filter is_remote_call tr).

(** Every message a validation_error envelope can carry. *)
Definition FIXED_MESSAGES : list string :=
  ["Request body must be JSON"; MSG_NEITHER; MSG_BOTH; MSG_URL_FORMAT;
   MSG_EMPTY_TEXT; MSG_V1].

(** Validation fails by raising: the body announced as JSON does not
    parse, or [validate_text_input] raises on the parsed body. *)
Definition fails_by_raising (request : flask_request) : Prop :=
  is_json request = true
  ∧ ((∃ e, get_json request = inl e)
     ∨ (∃ body e, get_json request = inr body
                  ∧ validate_text_input body = inl e)).

(** [{"text": 5}] posted as JSON. *)
Definition number_request : flask_request :=
  Request true (inr (JObj {[ "text" := JInt 5 ]})) [].

(** A body announced as JSON that does not parse. *)
Definition unparsable_request (e : exn) : flask_request :=
  Request true (inl e) [].

(** A JSON array posted as the body. *)
Definition array_request : flask_request := Request true (inr (JList [])) [].

(** An exception of the kind [get_json] raises on a body it cannot parse. *)
Definition bad_request : exn :=
  Exn "BadRequest"
    "400 Bad Request: The browser (or proxy) sent a request that this server could not understand.".

(** An SDK object with [to_dict], whose results give [d] by [to_dict]. *)
Definition sdk_v5 (d : json) : sdk_response :=
  SdkResponse "AnalyzeTextResponse" true None
    (Some (SdkResults (Some (inr d)) (inr d))).

(** A remote service that returns [response_data] whatever it is asked. *)
Definition returning (response_data : sdk_response)
  : option pydict → pydict → res sdk_response :=
  fun _ _ => inr response_data.

Definition summary_results : json :=
  JObj {[ "summary" := JObj {[ "text" := JStr "A greeting." ]} ]}.

(** An SDK object with [to_dict] and no results attribute. *)
Definition sdk_without_results : sdk_response :=
  SdkResponse "AnalyzeTextResponse" true None None.

(** The configuration an attempt to read the file ends with. *)
Definition read_config (open_toml : res string)
    (toml_load : string → res pydict) : res pydict :=
  content ← open_toml; toml_load content.

(** A parser that refuses every file. *)
Definition refusing_parser (message : string) : string → res pydict :=
  fun _ => inl (Exn "TomlDecodeError" message).

(** * Facts *)

(** ** Strings *)

Section StringFacts.
Import PyStr.

Lemma nonempty_true (s : string) : nonempty s = true ↔ s ≠ "".
Proof. destruct s; simpl; split; congruence. Qed.

Lemma startswith_lower (p s : string) :
  startswith p s = true → startswith (lower p) (lower s) = true.
Proof.
  revert s; induction p as [|a p IH]; intros [|b s]; simpl; try done.
  destruct (decide (a = b)) as [->|]; [|done].
  intros H. rewrite decide_True by done. by apply IH.
Qed.

(** Lower-casing keeps every occurrence of a needle written in lower case. *)
Lemma contains_lower (needle s : string) :
  lower needle = needle →
  contains needle s = true → contains needle (lower s) = true.
Proof.
  intros Hn. induction s as [|b s IH].
  - simpl. rewrite !orb_false_r. intros H.
    apply startswith_lower in H. by rewrite Hn in H.
  - cbn [contains lower]. rewrite !orb_true_iff. intros [H|H].
    + left. apply startswith_lower in H. by rewrite Hn in H.
    + right. by apply IH.
Qed.

(** [rstrip] leaves nothing exactly when there was only white space. *)
Lemma rstrip_empty (s : string) : rstrip s = "" ↔ all_space s = true.
Proof.
  induction s as [|a s IH]; simpl; [done|].
  destruct (rstrip s) eqn:E.
  - destruct (isspace a); simpl; [|split; congruence].
    destruct IH as [IH _]. rewrite IH by done. done.
  - split; [done|]. rewrite andb_true_iff. intros [_ H].
    apply IH in H. done.
Qed.

Lemma lstrip_all_space (s : string) : all_space (lstrip s) = all_space s.
Proof.
  induction s as [|a s IH]; simpl; [done|].
  destruct (isspace a) eqn:E; simpl; [done|]. by rewrite E.
Qed.

(** [s.strip()] is empty exactly when [s] is empty or white space only. *)
Lemma strip_empty (s : string) : strip s = "" ↔ all_space s = true.
Proof. unfold strip. by rewrite rstrip_empty, lstrip_all_space. Qed.

End StringFacts.

(** ** Validation *)

Lemma validate_text_input_dict (d : pydict) :
  validate_text_input (JObj d) =
    let text := field d "text" in
    let url := field d "url" in
    if negb (truthy text) && negb (truthy url) then inr (None, Some MSG_NEITHER)
    else if truthy text && truthy url then inr (None, Some MSG_BOTH)
    else if truthy url then
      ok ← py_startswith url SCHEMES;
      if negb ok then inr (None, Some MSG_URL_FORMAT)
      else inr (Some {[ "url" := url ]}, None)
    else
      stripped ← py_strip text;
      if negb (PyStr.nonempty stripped) then inr (None, Some MSG_EMPTY_TEXT)
      else inr (Some {[ "text" := text ]}, None).
Proof. reflexivity. Qed.

Lemma validate_text_input_not_dict (v : json) :
  (∀ d, v ≠ JObj d) → validate_text_input v = inl (AttributeError v "get").
Proof. intros H. destruct v; try reflexivity. by destruct (H d). Qed.

(** Whatever the body, validation returns either a request and no message,
    or no request and one of its four messages. *)
Lemma validate_text_input_shape (body : json) rd (msg : option string) :
  validate_text_input body = inr (rd, msg) →
  (∃ r, rd = Some r ∧ msg = None) ∨
  (∃ m, rd = None ∧ msg = Some m ∧ m ∈ validation_messages).
Proof.
  destruct body as [| | | | | |d]; try discriminate.
  rewrite validate_text_input_dict. cbv zeta.
  unfold validation_messages.
  destruct (truthy (field d "text")), (truthy (field d "url")); cbn [negb andb].
  - intros [= <- <-]. right. eexists. repeat split. set_solver.
  - destruct (py_strip (field d "text")) as [e|s]; [discriminate|].
    cbn [mbind res_bind]. destruct (PyStr.nonempty s); cbn [negb].
    + intros [= <- <-]. left. by eexists.
    + intros [= <- <-]. right. eexists. repeat split. set_solver.
  - destruct (py_startswith (field d "url") SCHEMES) as [e|b]; [discriminate|].
    cbn [mbind res_bind]. destruct b; cbn [negb].
    + intros [= <- <-]. left. by eexists.
    + intros [= <- <-]. right. eexists. repeat split. set_solver.
  - intros [= <- <-]. right. eexists. repeat split. set_solver.
Qed.

Lemma validate_neither (d : pydict) :
  given d "text" = false → given d "url" = false →
  validate_text_input (JObj d) = inr (None, Some MSG_NEITHER).
Proof.
  unfold given. intros Ht Hu. rewrite validate_text_input_dict. cbv zeta.
  by rewrite Ht, Hu.
Qed.

Lemma validate_both (d : pydict) :
  given d "text" = true → given d "url" = true →
  validate_text_input (JObj d) = inr (None, Some MSG_BOTH).
Proof.
  unfold given. intros Ht Hu. rewrite validate_text_input_dict. cbv zeta.
  by rewrite Ht, Hu.
Qed.

Lemma validate_text_only (d : pydict) :
  given d "text" = true → given d "url" = false →
  validate_text_input (JObj d) =
    match field d "text" with
    | JStr s =>
        if PyStr.nonempty (PyStr.strip s)
        then inr (Some {[ "text" := JStr s ]}, None)
        else inr (None, Some MSG_EMPTY_TEXT)
    | v => inl (AttributeError v "strip")
    end.
Proof.
  unfold given. intros Ht Hu. rewrite validate_text_input_dict. cbv zeta.
  rewrite Ht, Hu. cbn [negb andb].
  destruct (field d "text"); try reflexivity.
  cbn [py_strip mbind res_bind mret res_ret].
  by destruct (PyStr.nonempty (PyStr.strip s)).
Qed.

Lemma validate_url_only (d : pydict) :
  given d "text" = false → given d "url" = true →
  validate_text_input (JObj d) =
    match field d "url" with
    | JStr u =>
        if PyStr.startswith_any SCHEMES u
        then inr (Some {[ "url" := JStr u ]}, None)
        else inr (None, Some MSG_URL_FORMAT)
    | v => inl (AttributeError v "startswith")
    end.
Proof.
  unfold given. intros Ht Hu. rewrite validate_text_input_dict. cbv zeta.
  rewrite Ht, Hu. cbn [negb andb].
  destruct (field d "url"); try reflexivity.
  cbn [py_startswith mbind res_bind mret res_ret].
  by destruct (PyStr.startswith_any SCHEMES s).
Qed.

(** ** The handler monad *)

Lemma bind_lift_ok {A B} (a : A) (k : A → M B) : (lift (inr a) ≫= k) = k a.
Proof. unfold lift, mbind, M_bind. by destruct (k a). Qed.

Lemma bind_lift_raise {A B} (e : exn) (k : A → M B) :
  (lift (inl e) ≫= k) = ([], inl e).
Proof. reflexivity. Qed.

Lemma bind_ret {A B} (a : A) (k : A → M B) : (mret a ≫= k) = k a.
Proof. unfold mret, M_ret, mbind, M_bind. by destruct (k a). Qed.

Lemma bind_emit {B} (ev : event) (k : unit → M B) :
  (emit ev ≫= k) = (ev :: trace (k tt), outcome (k tt)).
Proof. unfold emit, mbind, M_bind, trace, outcome. by destruct (k tt). Qed.

Lemma bind_raise {A B} tr (e : exn) (k : A → M B) :
  ((tr, inl e) ≫= k) = (tr, inl e).
Proof. reflexivity. Qed.

Lemma bind_ok {A B} tr (a : A) (k : A → M B) :
  ((tr, inr a) ≫= k) = ((tr ++ trace (k a))%list, outcome (k a)).
Proof. unfold mbind, M_bind, trace, outcome. by destruct (k a). Qed.

Lemma try_except_ok {A} tr (a : A) h : try_except (tr, inr a) h = (tr, inr a).
Proof. reflexivity. Qed.

Lemma try_except_raise {A} tr (e : exn) (h : exn → M A) :
  try_except (tr, inl e) h = ((tr ++ trace (h e))%list, outcome (h e)).
Proof. unfold try_except, trace, outcome. by destruct (h e). Qed.

(** ** The analyze handler, path by path *)

Section AnalyzeFacts.

Variable remote : option pydict → pydict → res sdk_response.

Lemma analyze_not_json (request : flask_request) :
  is_json request = false →
  analyze remote request =
    validation_error_response "INVALID_TEXT" "Request body must be JSON".
Proof.
  intros H. unfold analyze, analyze_try. rewrite H. reflexivity.
Qed.

Lemma validation_message_nonempty (m : string) :
  m ∈ validation_messages → PyStr.nonempty m = true.
Proof.
  unfold validation_messages. rewrite !elem_of_cons, elem_of_nil.
  intros [->|[->|[->|[->|[]]]]]; reflexivity.
Qed.

Lemma analyze_validation_error request body rd msg :
  json_request request body →
  validate_text_input body = inr (rd, Some msg) →
  analyze remote request =
    validation_error_response
      (if PyStr.contains "text" (PyStr.lower msg)
       then "INVALID_TEXT" else "INVALID_URL") msg.
Proof.
  intros [Hj Hb] Hv.
  destruct (validate_text_input_shape _ _ _ Hv) as [(r & _ & [=])|(m & -> & [= <-] & Hm)].
  apply validation_message_nonempty in Hm.
  unfold analyze, analyze_try. rewrite Hj, Hb. cbn [negb].
  rewrite bind_lift_ok, Hv, bind_lift_ok. cbn [if_error]. rewrite Hm.
  reflexivity.
Qed.

Lemma build_deepgram_options_shape (q : query) :
  (∃ o, build_deepgram_options q = (Some o, None)) ∨
  build_deepgram_options q = (None, Some MSG_V1).
Proof.
  unfold build_deepgram_options.
  repeat case_decide; eauto.
Qed.

Lemma analyze_options_error request body rd o msg :
  json_request request body →
  validate_text_input body = inr (rd, None) →
  build_deepgram_options (args request) = (o, Some msg) →
  analyze remote request = validation_error_response "INVALID_TEXT" msg.
Proof.
  intros [Hj Hb] Hv Ho.
  destruct (build_deepgram_options_shape (args request)) as [[o' H]|H];
    rewrite H in Ho; [discriminate|]. injection Ho as <- <-.
  unfold analyze, analyze_try. rewrite Hj, Hb. cbn [negb].
  rewrite bind_lift_ok, Hv, bind_lift_ok. cbn [if_error]. rewrite H.
  reflexivity.
Qed.

Lemma analyze_except_eq (e : exn) :
  analyze_except e =
    ([EvPrint ("Text Intelligence Error: " +:+ exn_str e); EvTraceback],
     inr (processing_error_response e)).
Proof.
  unfold analyze_except, processing_error_response.
  destruct (classify e) as [code st]. reflexivity.
Qed.

(** Once validation and option mapping have passed, the handler calls the
    remote service once, first thing, and answers from what comes back. *)
Lemma analyze_reaches_remote request body rd o :
  json_request request body →
  validate_text_input body = inr (rd, None) →
  build_deepgram_options (args request) = (Some o, None) →
  analyze remote request =
    match remote rd o with
    | inl e =>
        (EvRemoteCall rd o :: trace (analyze_except e), outcome (analyze_except e))
    | inr response_data =>
        match format_result response_data with
        | inl e =>
            (EvRemoteCall rd o :: trace (analyze_except e),
             outcome (analyze_except e))
        | inr result => ([EvRemoteCall rd o], inr (Response result 200))
        end
    end.
Proof.
  intros [Hj Hb] Hv Ho.
  unfold analyze, analyze_try. rewrite Hj, Hb. cbn [negb].
  rewrite bind_lift_ok, Hv, bind_lift_ok. cbn [if_error]. rewrite Ho.
  cbn [if_error call_remote]. rewrite bind_emit. cbv beta.
  unfold lift. cbn [trace outcome fst snd].
  destruct (remote rd o) as [e|resp].
  { rewrite bind_raise. by rewrite try_except_raise. }
  rewrite bind_ok.
  destruct (format_result resp) as [e|result].
  { rewrite bind_raise. cbn [trace outcome fst snd app].
    by rewrite try_except_raise. }
  reflexivity.
Qed.

End AnalyzeFacts.

(** * The statements of the specification *)

(** ** Input validation *)

(** C1, as the specification words it, does not hold: a body that carries
    both keys, the url being the empty string, is accepted as a text
    request, although two keys are present and the url has no scheme. *)
Lemma empty_url_beside_text_is_accepted :
  let d : pydict := {[ "text" := JStr "hello"; "url" := JStr "" ]} in
  validate_text_input (JObj d) = inr (Some {[ "text" := JStr "hello" ]}, None)
  ∧ ¬ accepted_as_specified d.
Proof.
  cbv zeta. split; [reflexivity|].
  intros (Hx & _ & _). vm_compute in Hx. discriminate.
Qed.

(** C1 (amended): a field counts as given when its value is truthy (for a
    string: non-empty).  For every body that is a string-keyed mapping,
    validation succeeds exactly when one of text and url is given and the
    other is not, the given value is a string, and a given text is not
    blank after trimming, a given url starts with http:// or https://; the
    request produced holds that one field.  The endpoint answers 400 with a
    validation_error envelope and no remote call, with code INVALID_TEXT
    when neither field is given, when both are, or when the only given
    field is a blank text, and with code INVALID_URL when the only given
    field is a url string without an accepted scheme. *)
Theorem validation_of_mapping_bodies
    (remote : option pydict → pydict → res sdk_response)
    (d : pydict) (q : query) :
  let text := field d "text" in
  let url := field d "url" in
  let answer := analyze remote (Request true (inr (JObj d)) q) in
  ((∃ rd, validate_text_input (JObj d) = inr (Some rd, None)) ↔
     (given d "text" = true ∧ given d "url" = false ∧
        ∃ s, text = JStr s ∧ PyStr.strip s ≠ "") ∨
     (given d "url" = true ∧ given d "text" = false ∧
        ∃ u, url = JStr u ∧ PyStr.startswith_any SCHEMES u = true))
  ∧ (∀ rd, validate_text_input (JObj d) = inr (Some rd, None) →
       rd = if given d "url" then {[ "url" := url ]} else {[ "text" := text ]})
  ∧ (given d "text" = false → given d "url" = false →
       answer = validation_error_response "INVALID_TEXT" MSG_NEITHER)
  ∧ (given d "text" = true → given d "url" = true →
       answer = validation_error_response "INVALID_TEXT" MSG_BOTH)
  ∧ (∀ s, given d "text" = true → given d "url" = false →
       text = JStr s → PyStr.strip s = "" →
       answer = validation_error_response "INVALID_TEXT" MSG_EMPTY_TEXT)
  ∧ (∀ u, given d "url" = true → given d "text" = false →
       url = JStr u → PyStr.startswith_any SCHEMES u = false →
       answer = validation_error_response "INVALID_URL" MSG_URL_FORMAT).
Proof.
  cbv zeta.
  assert (Hreq : json_request (Request true (inr (JObj d)) q) (JObj d))
    by (split; reflexivity).
  split; [|split; [|split; [|split; [|split]]]].
  - destruct (given d "text") eqn:Ht, (given d "url") eqn:Hu.
    + rewrite validate_both by done. split.
      * intros [rd [=]].
      * intros [(_ & [=] & _)|(_ & [=] & _)].
    + rewrite validate_text_only by done. split.
      * intros [rd H]. left. do 2 (split; [done|]).
        destruct (field d "text") as [| | | |s| |]; try discriminate.
        exists s. split; [done|].
        destruct (PyStr.nonempty (PyStr.strip s)) eqn:E; [|discriminate].
        by apply nonempty_true.
      * intros [(_ & _ & s & -> & Hs)|([=] & _)].
        apply nonempty_true in Hs. rewrite Hs. eauto.
    + rewrite validate_url_only by done. split.
      * intros [rd H]. right. do 2 (split; [done|]).
        destruct (field d "url") as [| | | |u| |]; try discriminate.
        exists u. split; [done|].
        by destruct (PyStr.startswith_any SCHEMES u).
      * intros [([=] & _)|(_ & _ & u & -> & Hs)].
        rewrite Hs. eauto.
    + rewrite validate_neither by done. split.
      * intros [rd [=]].
      * intros [([=] & _)|([=] & _)].
  - intros rd.
    destruct (given d "text") eqn:Ht, (given d "url") eqn:Hu.
    + by rewrite validate_both.
    + rewrite validate_text_only by done.
      destruct (field d "text") as [| | | |s| |]; try discriminate.
      destruct (PyStr.nonempty (PyStr.strip s)); [|discriminate].
      by intros [= <-].
    + rewrite validate_url_only by done.
      destruct (field d "url") as [| | | |u| |]; try discriminate.
      destruct (PyStr.startswith_any SCHEMES u); [|discriminate].
      by intros [= <-].
    + by rewrite validate_neither.
  - intros Ht Hu.
    by rewrite (analyze_validation_error remote _ _ None MSG_NEITHER Hreq)
      by (by apply validate_neither).
  - intros Ht Hu.
    by rewrite (analyze_validation_error remote _ _ None MSG_BOTH Hreq)
      by (by apply validate_both).
  - intros s Ht Hu Hs Hb.
    rewrite (analyze_validation_error remote _ _ None MSG_EMPTY_TEXT Hreq);
      [done|].
    rewrite validate_text_only, Hs by done.
    by rewrite Hb.
  - intros u Hu Ht Hs Hp.
    rewrite (analyze_validation_error remote _ _ None MSG_URL_FORMAT Hreq);
      [done|].
    rewrite validate_url_only, Hs by done.
    by rewrite Hp.
Qed.

(** ** Option mapping *)

Lemma set_flag_lookup (q : query) (key : string) (o : pydict) (k : string) :
  set_flag q key o !! k =
    if decide (key = k ∧ args_get q key = Some "true")
    then Some (JBool true) else o !! k.
Proof.
  unfold set_flag. destruct (decide (args_get q key = Some "true")) as [H|H].
  - destruct (decide (key = k)) as [->|Hk].
    + rewrite lookup_insert_eq. by rewrite decide_True.
    + rewrite lookup_insert_ne by done.
      rewrite decide_False; [done|]. by intros [? _].
  - rewrite decide_False; [done|]. by intros [_ ?].
Qed.

(** The three flags after the summarize step has produced [o]. *)
Lemma flags_lookup (q : query) (o : pydict) (k : string) :
  set_flag q "intents" (set_flag q "sentiment" (set_flag q "topics" o)) !! k =
    if decide (k ∈ FLAGS ∧ args_get q k = Some "true")
    then Some (JBool true) else o !! k.
Proof.
  rewrite !set_flag_lookup. unfold FLAGS.
  destruct (decide (k ∈ ["topics"; "sentiment"; "intents"]
                    ∧ args_get q k = Some "true")) as [[Hk Hq]|Hn].
  - repeat (apply elem_of_cons in Hk as [->|Hk];
            [repeat case_decide; try done;
             exfalso; match goal with H : ¬ (_ ∧ _) |- _ => by apply H end|]).
    by apply elem_of_nil in Hk.
  - repeat case_decide; try done; exfalso; apply Hn;
      match goal with H : _ = k ∧ _ |- _ => destruct H as [<- ?] end;
      (split; [|done]);
      repeat first [ apply list_elem_of_here | apply list_elem_of_further ].
Qed.

(** C2: the option mapper.  With summarize = v1 it rejects with its fixed
    message.  Otherwise it returns options in which language is the query
    value or en; summarize is the boolean true for the query value true,
    the string v2 for v2, and is missing for any other value or none; each
    of topics, sentiment and intents is the boolean true exactly when its
    query value is the string true, and is missing otherwise; and no other
    key is set.  Without query parameters the options are exactly
    language = en, and that is what the one remote call of the handler is
    given. *)
Theorem option_mapping (q : query) :
  let summarize := args_get q "summarize" in
  (summarize = Some "v1" → build_deepgram_options q = (None, Some MSG_V1))
  ∧ (summarize ≠ Some "v1" →
       ∃ o : pydict,
         build_deepgram_options q = (Some o, None)
         ∧ o !! "language" = Some (JStr (default "en" (args_get q "language")))
         ∧ (summarize = Some "true" → o !! "summarize" = Some (JBool true))
         ∧ (summarize = Some "v2" → o !! "summarize" = Some (JStr "v2"))
         ∧ (summarize ≠ Some "true" → summarize ≠ Some "v2" →
              o !! "summarize" = None)
         ∧ (∀ k, k ∈ FLAGS →
              (args_get q k = Some "true" → o !! k = Some (JBool true))
              ∧ (args_get q k ≠ Some "true" → o !! k = None))
         ∧ (∀ k, k ∉ OPTION_KEYS → o !! k = None))
  ∧ build_deepgram_options [] = (Some {[ "language" := JStr "en" ]}, None)
  ∧ (∀ remote body rd,
       validate_text_input body = inr (Some rd, None) →
       ∃ rest,
         trace (analyze remote (Request true (inr body) [])) =
           EvRemoteCall (Some rd) {[ "language" := JStr "en" ]} :: rest
         ∧ Forall (λ ev, is_remote_call ev = false) rest).
Proof.
  cbv zeta. split; [|split; [|split]].
  - intros H. unfold build_deepgram_options. rewrite H. reflexivity.
  - intros Hv1. unfold build_deepgram_options.
    set (lang := JStr (default "en" (args_get q "language"))).
    assert (Hflag : ∀ k, k ∈ FLAGS → k ≠ "language" ∧ k ≠ "summarize").
    { unfold FLAGS. intros k Hk.
      repeat (apply elem_of_cons in Hk as [->|Hk]; [done|]).
      by apply elem_of_nil in Hk. }
    assert (Hother : ∀ k, k ∉ OPTION_KEYS →
              (k ∉ FLAGS) ∧ k ≠ "language" ∧ k ≠ "summarize").
    { unfold OPTION_KEYS. intros k Hk. repeat split.
      - intros H. apply Hk. by do 2 apply list_elem_of_further.
      - intros ->. apply Hk. apply list_elem_of_here.
      - intros ->. apply Hk. apply list_elem_of_further, list_elem_of_here. }
    destruct (decide (args_get q "summarize" = Some "true")) as [Ht|Ht];
      [|destruct (decide (args_get q "summarize" = Some "v2")) as [H2|H2];
        [|rewrite (decide_False (P := args_get q "summarize" = Some "v1"))
            by done]];
      (eexists; split; [reflexivity|]);
      (split; [by rewrite flags_lookup|]);
      (split; [intros H; try congruence; by rewrite flags_lookup|]);
      (split; [intros H; try congruence; by rewrite flags_lookup|]);
      (split; [intros H H'; try congruence; by rewrite flags_lookup|]);
      (split;
       [ intros k Hk; destruct (Hflag k Hk) as [Hl Hs]; split; intros Hq;
         rewrite flags_lookup;
         [ by rewrite decide_True
         | rewrite decide_False by (by intros [_ ?]);
           rewrite ?lookup_insert_ne by done; by rewrite lookup_singleton_ne ]
       | intros k Hk; destruct (Hother k Hk) as (Hf & Hl & Hs);
         rewrite flags_lookup, decide_False by (by intros [? _]);
         rewrite ?lookup_insert_ne by done; by rewrite lookup_singleton_ne ]).
  - reflexivity.
  - intros remote body rd Hv.
    rewrite (analyze_reaches_remote remote _ body (Some rd)
               {[ "language" := JStr "en" ]});
      [|by split|done|reflexivity].
    destruct (remote _ _) as [e|resp];
      [|destruct (format_result resp) as [e|r]];
      rewrite ?analyze_except_eq; cbn [trace outcome fst snd];
      eexists; (split; [reflexivity|]); repeat constructor.
Qed.

(** ** Faults of the remote call *)

Lemma faulting_hello (e : exn) : remote_fault (faulting e) (hello_request []) e.
Proof.
  exists (JObj {[ "text" := JStr "hello" ]}),
         (Some {[ "text" := JStr "hello" ]}), {[ "language" := JStr "en" ]}.
  repeat split.
Defined.

Lemma analyze_remote_fault remote request e :
  remote_fault remote request e →
  outcome (analyze remote request) = inr (processing_error_response e).
Proof.
  intros (body & rd & o & Hreq & Hv & Ho & He).
  rewrite (analyze_reaches_remote remote request body rd o Hreq Hv Ho), He.
  by rewrite analyze_except_eq.
Qed.

Lemma classify_cases (e : exn) :
  let msg := PyStr.lower (exn_str e) in
  classify e =
    if PyStr.contains "text" msg then ("INVALID_TEXT", 400%Z)
    else if PyStr.contains "url" msg then ("INVALID_URL", 400%Z)
    else if PyStr.contains "too long" msg then ("TEXT_TOO_LONG", 400%Z)
    else ("INVALID_TEXT", 500%Z).
Proof. reflexivity. Qed.

(** C9: the classifier looks at the lower-cased message and takes the first
    of text, url, too long that occurs in it.  A fault whose message
    contains text in any letter case is answered 400 INVALID_TEXT, whatever
    else the message contains; one that contains url and not text is
    answered 400 INVALID_URL, whether or not it contains too long. *)
Theorem classification_order remote request e :
  remote_fault remote request e →
  let msg := PyStr.lower (exn_str e) in
  (PyStr.contains "text" msg = true →
     outcome (analyze remote request) =
       inr (Response
              (format_error_response "processing_error" "INVALID_TEXT" (exn_str e))
              400))
  ∧ (PyStr.contains "text" msg = false → PyStr.contains "url" msg = true →
     outcome (analyze remote request) =
       inr (Response
              (format_error_response "processing_error" "INVALID_URL" (exn_str e))
              400)).
Proof.
  intros Hf. cbv zeta. rewrite (analyze_remote_fault _ _ _ Hf).
  unfold processing_error_response. rewrite classify_cases. cbv zeta.
  split.
  - intros ->. reflexivity.
  - intros -> ->. reflexivity.
Qed.

(** Such a message is classified by the first needle, text. *)
Lemma classification_order_witness :
  remote_fault (faulting muddled_fault) (hello_request []) muddled_fault
  ∧ outcome (analyze (faulting muddled_fault) (hello_request [])) =
      inr (Response
             (format_error_response "processing_error" "INVALID_TEXT"
                "The URL of the Text is too long")
             400).
Proof.
  split; [apply faulting_hello|].
  exact (proj1 (classification_order (faulting muddled_fault)
                  (hello_request []) muddled_fault
                  (faulting_hello muddled_fault)) eq_refl).
Defined.

Lemma envelope_field_format (ty code msg key : string) :
  envelope_field (format_error_response ty code msg) key =
    ({[ "type" := JStr ty; "code" := JStr code; "message" := JStr msg;
        "details" := JObj ∅ ]} : pydict) !! key.
Proof. reflexivity. Qed.

Lemma envelope_code (ty code msg : string) :
  envelope_field (format_error_response ty code msg) "code" = Some (JStr code).
Proof. reflexivity. Qed.

Lemma envelope_message (ty code msg : string) :
  envelope_field (format_error_response ty code msg) "message" = Some (JStr msg).
Proof. reflexivity. Qed.

Lemma envelope_type (ty code msg : string) :
  envelope_field (format_error_response ty code msg) "type" = Some (JStr ty).
Proof. reflexivity. Qed.

(** C3, as the specification words it, does not hold: the message
    [text too long] contains too long, and the endpoint answers with the
    code INVALID_TEXT, not TEXT_TOO_LONG, because text is looked for
    first. *)
Lemma text_too_long_is_invalid_text :
  let e := Exn "ApiError" "text too long" in
  remote_fault (faulting e) (hello_request []) e
  ∧ PyStr.contains "too long" (exn_str e) = true
  ∧ outcome (analyze (faulting e) (hello_request [])) =
      inr (Response
             (format_error_response "processing_error" "INVALID_TEXT"
                "text too long")
             400)
  ∧ ¬ (∃ r, outcome (analyze (faulting e) (hello_request [])) = inr r
            ∧ envelope_field (body r) "code" = Some (JStr "TEXT_TOO_LONG")).
Proof.
  cbv zeta. split; [apply faulting_hello|]. split; [reflexivity|].
  assert (H : outcome (analyze (faulting (Exn "ApiError" "text too long"))
                         (hello_request [])) =
              inr (Response
                     (format_error_response "processing_error" "INVALID_TEXT"
                        "text too long") 400)) by reflexivity.
  split; [exact H|].
  intros (r & Hr & Hc). rewrite H in Hr. injection Hr as <-.
  cbn [body] in Hc. rewrite envelope_code in Hc. discriminate.
Qed.

(** C3 (amended): for every fault raised by the remote call whose message
    contains too long, in any letter case, and contains neither text nor
    url, in any letter case, the endpoint answers 400 with the code
    TEXT_TOO_LONG and the message of the fault. *)
Theorem too_long_classification remote request e :
  remote_fault remote request e →
  PyStr.contains "text" (PyStr.lower (exn_str e)) = false →
  PyStr.contains "url" (PyStr.lower (exn_str e)) = false →
  PyStr.contains "too long" (PyStr.lower (exn_str e)) = true →
  outcome (analyze remote request) =
    inr (Response
           (format_error_response "processing_error" "TEXT_TOO_LONG" (exn_str e))
           400).
Proof.
  intros Hf Ht Hu Hl. rewrite (analyze_remote_fault _ _ _ Hf).
  unfold processing_error_response. rewrite classify_cases. cbv zeta.
  by rewrite Ht, Hu, Hl.
Qed.

Lemma too_long_classification_witness :
  remote_fault (faulting too_long_fault) (hello_request []) too_long_fault
  ∧ outcome (analyze (faulting too_long_fault) (hello_request [])) =
      inr (Response
             (format_error_response "processing_error" "TEXT_TOO_LONG"
                "Payload Too Long")
             400).
Proof.
  split; [apply faulting_hello|].
  exact (too_long_classification (faulting too_long_fault) (hello_request [])
           too_long_fault (faulting_hello too_long_fault)
           eq_refl eq_refl eq_refl).
Defined.

(** The same with the needle as the specification writes it: a message that
    contains too long as it stands contains it after lower-casing. *)
Lemma too_long_as_written remote request e :
  remote_fault remote request e →
  PyStr.contains "too long" (exn_str e) = true →
  PyStr.contains "text" (PyStr.lower (exn_str e)) = false →
  PyStr.contains "url" (PyStr.lower (exn_str e)) = false →
  envelope_field
    (match outcome (analyze remote request) with
     | inr r => body r
     | inl _ => JNull
     end) "code" = Some (JStr "TEXT_TOO_LONG").
Proof.
  intros Hf Hl Ht Hu. apply (contains_lower "too long") in Hl; [|reflexivity].
  rewrite (analyze_remote_fault _ _ _ Hf).
  unfold processing_error_response. rewrite classify_cases. cbv zeta.
  rewrite Ht, Hu, Hl. reflexivity.
Qed.

(** C4, as the specification words it, does not hold: the message
    [Invalid URL] contains none of the three needles as they are written,
    and the endpoint answers 400 with the code INVALID_URL and the message
    of the fault, because the needles are looked for in the lower-cased
    message. *)
Lemma upper_case_needle_is_classified :
  let e := Exn "ApiError" "Invalid URL" in
  remote_fault (faulting e) (hello_request []) e
  ∧ PyStr.contains "text" (exn_str e) = false
  ∧ PyStr.contains "url" (exn_str e) = false
  ∧ PyStr.contains "too long" (exn_str e) = false
  ∧ outcome (analyze (faulting e) (hello_request [])) =
      inr (Response
             (format_error_response "processing_error" "INVALID_URL"
                "Invalid URL")
             400)
  ∧ ¬ (∃ r, outcome (analyze (faulting e) (hello_request [])) = inr r
            ∧ status r = 500%Z).
Proof.
  cbv zeta. split; [apply faulting_hello|]. do 3 (split; [reflexivity|]).
  assert (H : outcome (analyze (faulting (Exn "ApiError" "Invalid URL"))
                         (hello_request [])) =
              inr (Response
                     (format_error_response "processing_error" "INVALID_URL"
                        "Invalid URL") 400)) by reflexivity.
  split; [exact H|].
  intros (r & Hr & Hs). rewrite H in Hr. injection Hr as <-. discriminate.
Qed.

Lemma classify_status (e : exn) :
  (classify e).2 = 400%Z ∨ (classify e).2 = 500%Z.
Proof.
  rewrite classify_cases. cbv zeta.
  repeat case_match; cbn [snd]; auto.
Qed.

(** C4 (amended): for every fault raised by the remote call whose message
    contains none of text, url, too long in any letter case, the endpoint
    answers 500 with a processing_error envelope whose code is INVALID_TEXT
    and whose message is the fixed text [Text processing failed].  Whatever
    the fault, the answer is 400 with the message of the fault, or 500 with
    the fixed text. *)
Theorem unclassified_fault_is_generic remote request e :
  remote_fault remote request e →
  (PyStr.contains "text" (PyStr.lower (exn_str e)) = false →
   PyStr.contains "url" (PyStr.lower (exn_str e)) = false →
   PyStr.contains "too long" (PyStr.lower (exn_str e)) = false →
   outcome (analyze remote request) =
     inr (Response
            (format_error_response "processing_error" "INVALID_TEXT"
               "Text processing failed")
            500))
  ∧ (∃ r, outcome (analyze remote request) = inr r
       ∧ envelope_field (body r) "type" = Some (JStr "processing_error")
       ∧ (status r = 400%Z
            ∧ envelope_field (body r) "message" = Some (JStr (exn_str e))
          ∨ status r = 500%Z
            ∧ envelope_field (body r) "message" =
                Some (JStr "Text processing failed"))).
Proof.
  intros Hf. rewrite (analyze_remote_fault _ _ _ Hf). split.
  - intros Ht Hu Hl. unfold processing_error_response.
    rewrite classify_cases. cbv zeta. by rewrite Ht, Hu, Hl.
  - eexists. split; [reflexivity|].
    unfold processing_error_response. cbn [body status].
    rewrite envelope_type, envelope_message. split; [done|].
    destruct (classify_status e) as [H|H]; rewrite H; [left|right]; done.
Qed.

Lemma unclassified_fault_is_generic_witness :
  remote_fault (faulting unrelated_fault) (hello_request []) unrelated_fault
  ∧ outcome (analyze (faulting unrelated_fault) (hello_request [])) =
      inr (Response
             (format_error_response "processing_error" "INVALID_TEXT"
                "Text processing failed")
             500).
Proof.
  split; [apply faulting_hello|].
  exact (proj1 (unclassified_fault_is_generic (faulting unrelated_fault)
                  (hello_request []) unrelated_fault
                  (faulting_hello unrelated_fault))
           eq_refl eq_refl eq_refl).
Defined.

(** ** Requests refused before the remote call *)

(** A refusal: the handler makes no remote call (it does nothing but
    answer) and answers 400 with a validation_error envelope. *)
Theorem rejected_requests_stay_local remote request :
  rejected request →
  trace (analyze remote request) = []
  ∧ Forall (λ ev, is_remote_call ev = false) (trace (analyze remote request))
  ∧ ∃ code msg,
      outcome (analyze remote request) =
        inr (Response (format_error_response "validation_error" code msg) 400).
Proof.
  intros [H|[(body & rd & msg & Hreq & Hv)|(body & rd & o & msg & Hreq & Hv & Ho)]].
  - rewrite (analyze_not_json remote request H).
    split; [done|]. split; [constructor|]. by do 2 eexists.
  - rewrite (analyze_validation_error remote request body rd msg Hreq Hv).
    split; [done|]. split; [constructor|]. by do 2 eexists.
  - rewrite (analyze_options_error remote request body rd o msg Hreq Hv Ho).
    split; [done|]. split; [constructor|]. by do 2 eexists.
Qed.

Lemma hello_v1_rejected : rejected (hello_request [("summarize", "v1")]).
Proof.
  right; right.
  exists (JObj {[ "text" := JStr "hello" ]}),
         (Some {[ "text" := JStr "hello" ]}), None, MSG_V1.
  repeat split.
Defined.

Lemma rejected_requests_stay_local_witness :
  rejected (hello_request [("summarize", "v1")])
  ∧ trace (analyze (faulting unrelated_fault)
             (hello_request [("summarize", "v1")])) = [].
Proof.
  split; [exact hello_v1_rejected|].
  exact (proj1 (rejected_requests_stay_local (faulting unrelated_fault)
                  (hello_request [("summarize", "v1")]) hello_v1_rejected)).
Defined.

(** C8, as the specification words it, does not hold: the handler tests
    what the request announces ([request.is_json], the content type), not
    the body.  A body that is not JSON and is announced as JSON makes
    [get_json] raise, and the answer is 500 with a processing_error
    envelope, not 400 with the message [Request body must be JSON]. *)
Lemma unparsable_body_announced_as_json :
  let request := unparsable_request bad_request in
  is_json request = true
  ∧ (∀ v, get_json request ≠ inr v)
  ∧ outcome (analyze (faulting unrelated_fault) request) =
      inr (Response
             (format_error_response "processing_error" "INVALID_TEXT"
                "Text processing failed")
             500)
  ∧ outcome (analyze (faulting unrelated_fault) request) ≠
      inr (Response
             (format_error_response "validation_error" "INVALID_TEXT"
                "Request body must be JSON")
             400).
Proof.
  cbv zeta. split; [reflexivity|]. split; [intros v; discriminate|].
  assert (H : outcome (analyze (faulting unrelated_fault)
                         (unparsable_request bad_request)) =
              inr (Response
                     (format_error_response "processing_error" "INVALID_TEXT"
                        "Text processing failed") 500)) by reflexivity.
  split; [exact H|]. rewrite H. intros [=].
Qed.

(** C8 (amended): a request that does not announce a JSON body
    ([request.is_json] is false), whatever its body, is answered 400 with a
    validation_error envelope, code INVALID_TEXT and the message
    [Request body must be JSON]; the answer depends neither on the body nor
    on the query, and nothing else happens: no remote call is made. *)
Theorem non_json_body_is_refused
    (remote : option pydict → pydict → res sdk_response)
    (parsed : res json) (q : query) :
  analyze remote (Request false parsed q) =
    ([], inr (Response
                (format_error_response "validation_error" "INVALID_TEXT"
                   "Request body must be JSON")
                400)).
Proof. reflexivity. Qed.

(** ** The other two routes *)

Lemma metadata_error_field (message : string) :
  body_field (metadata_error message) "error" = Some (JStr "INTERNAL_SERVER_ERROR").
Proof. reflexivity. Qed.

(** C6: when the configuration file opens and parses to a table with a meta
    entry, the metadata endpoint answers 200 with that entry as it is; when
    the file is missing, or the parsed table has no meta entry, it answers
    500 with a body whose error field is INTERNAL_SERVER_ERROR. *)
Theorem metadata_endpoint
    (open_toml : res string) (toml_load : string → res pydict) :
  (∀ content config meta,
     open_toml = inr content → toml_load content = inr config →
     config !! "meta" = Some meta →
     get_metadata open_toml toml_load = ([], inr (Response meta 200)))
  ∧ (∀ e, open_toml = inl e → exn_class e = "FileNotFoundError" →
       outcome (get_metadata open_toml toml_load) =
         inr (Response (metadata_error "deepgram.toml file not found") 500))
  ∧ (∀ content config,
       open_toml = inr content → toml_load content = inr config →
       config !! "meta" = None →
       outcome (get_metadata open_toml toml_load) =
         inr (Response
                (metadata_error "Missing [meta] section in deepgram.toml") 500))
  ∧ (∀ message,
       body_field (metadata_error message) "error" =
         Some (JStr "INTERNAL_SERVER_ERROR")).
Proof.
  split; [|split; [|split]].
  - intros content config meta Ho Hl Hm.
    unfold get_metadata, get_metadata_try.
    rewrite Ho, bind_lift_ok, Hl, bind_lift_ok, Hm. reflexivity.
  - intros e Ho Hc.
    unfold get_metadata, get_metadata_try.
    rewrite Ho, bind_lift_raise, try_except_raise.
    unfold get_metadata_except. rewrite decide_True by done. reflexivity.
  - intros content config Ho Hl Hm.
    unfold get_metadata, get_metadata_try.
    rewrite Ho, bind_lift_ok, Hl, bind_lift_ok, Hm. reflexivity.
  - intros message. apply metadata_error_field.
Qed.

(** C7: whatever the request and whatever the collaborators do, the health
    route answers 200 with the object status = ok, service =
    text-intelligence, and does nothing else. *)
Theorem health_is_constant
    (remote : option pydict → pydict → res sdk_response)
    (open_toml : res string) (toml_load : string → res pydict)
    (request : flask_request) :
  dispatch remote open_toml toml_load "GET" "/health" request =
    Some ([], inr (Response
                     (JObj {[ "status" := JStr "ok";
                              "service" := JStr "text-intelligence" ]})
                     200))
  ∧ health =
      ([], inr (Response
                  (JObj {[ "status" := JStr "ok";
                           "service" := JStr "text-intelligence" ]})
                  200)).
Proof. split; reflexivity. Qed.

(** ** The shape of every answer of the analyze route *)

Lemma format_result_shape (response_data : sdk_response) (result : json) :
  format_result response_data = inr result →
  ∃ results, result = JObj {[ "results" := results ]}.
Proof.
  unfold format_result.
  destruct (resp_to_dict response_data).
  - destruct (resp_results response_data) as [results|]; [|discriminate].
    destruct (results_to_dict results) as [[e|d]|]; [discriminate| |];
      intros [= <-]; eauto.
  - destruct (resp_model_dump response_data) as [[e|result_data]|].
    + discriminate.
    + cbn [mbind res_bind].
      destruct (py_get_or result_data "results" (JObj ∅)) as [e|r];
        [discriminate|]. intros [= <-]. eauto.
    + destruct (resp_results response_data) as [results|].
      * destruct (results_dict results) as [e|d]; [discriminate|].
        intros [= <-]. eauto.
      * intros [= <-]. eauto.
Qed.

Lemma processing_error_answer (e : exn) : error_answer (processing_error_response e).
Proof.
  exists "processing_error", (classify e).1,
    (if decide ((classify e).2 = 400%Z) then exn_str e
     else "Text processing failed").
  split; [|reflexivity]. right. split; [done|]. apply classify_status.
Qed.

Lemma validation_error_answer (code msg : string) :
  error_answer (Response (format_error_response "validation_error" code msg) 400).
Proof. exists "validation_error", code, msg. split; [left|]; done. Qed.

Section AnswerShape.

Variable remote : option pydict → pydict → res sdk_response.

(** The call of the remote service and what follows it in the [try] block. *)
Lemma remote_step_outcome rd options (r : http_response) :
  outcome (response_data ← call_remote remote rd options;
           result ← lift (format_result response_data);
           mret (Response (jsonify result) 200)) = inr r →
  success_answer r.
Proof.
  destruct options as [o|]; cbn [call_remote].
  2: { rewrite bind_lift_raise. discriminate. }
  rewrite bind_emit. cbv beta. unfold lift. cbn [trace outcome fst snd].
  destruct (remote rd o) as [e|resp]; [rewrite bind_raise; discriminate|].
  rewrite bind_ok. cbn [outcome snd].
  destruct (format_result resp) as [e|result] eqn:Hr;
    [rewrite bind_raise; discriminate|].
  rewrite bind_ok. cbn [outcome snd mret M_ret]. intros [= <-].
  split; [done|]. cbn [body]. by apply format_result_shape in Hr.
Qed.

(** The option mapping step and what follows it. *)
Lemma options_step_outcome rd (q : query) (r : http_response) :
  outcome
    (let '(options, error_msg) := build_deepgram_options q in
     if_error error_msg
       (λ error_msg,
          let error :=
            format_error_response "validation_error" "INVALID_TEXT" error_msg in
          mret (Response (jsonify error) 400))
       (response_data ← call_remote remote rd options;
        result ← lift (format_result response_data);
        mret (Response (jsonify result) 200))) = inr r →
  success_answer r ∨ error_answer r.
Proof.
  destruct (build_deepgram_options q) as [options [m|]]; cbn [if_error].
  - destruct (PyStr.nonempty m).
    + intros [= <-]. right. apply validation_error_answer.
    + intros H. left. by apply remote_step_outcome in H.
  - intros H. left. by apply remote_step_outcome in H.
Qed.

Lemma analyze_try_outcome request (r : http_response) :
  outcome (analyze_try remote request) = inr r →
  success_answer r ∨ error_answer r.
Proof.
  unfold analyze_try. destruct (is_json request); cbn [negb].
  2: { intros [= <-]. right. apply validation_error_answer. }
  destruct (get_json request) as [e|body];
    [rewrite bind_lift_raise; discriminate|].
  rewrite bind_lift_ok.
  destruct (validate_text_input body) as [e|[rd [m|]]];
    [rewrite bind_lift_raise; discriminate| |];
    rewrite bind_lift_ok; cbn [if_error].
  - destruct (PyStr.nonempty m).
    + intros [= <-]. right. apply validation_error_answer.
    + apply options_step_outcome.
  - apply options_step_outcome.
Qed.

(** The handler always answers: an exception of the [try] block becomes a
    processing_error answer. *)
Lemma analyze_outcome request :
  outcome (analyze remote request) =
    match outcome (analyze_try remote request) with
    | inl e => inr (processing_error_response e)
    | inr r => inr r
    end.
Proof.
  unfold analyze. destruct (analyze_try remote request) as [tr [e|r]].
  - rewrite try_except_raise, analyze_except_eq. reflexivity.
  - reflexivity.
Qed.

Lemma analyze_answers request :
  ∃ r, outcome (analyze remote request) = inr r
       ∧ (success_answer r ∨ error_answer r).
Proof.
  rewrite analyze_outcome.
  destruct (outcome (analyze_try remote request)) as [e|r] eqn:H.
  - eexists. split; [reflexivity|]. right. apply processing_error_answer.
  - exists r. split; [reflexivity|]. by apply (analyze_try_outcome request).
Qed.

End AnswerShape.

(** C10: an error envelope holds, under the key error, exactly the four
    fields type, code, message and details, the last one the empty object;
    and every answer of the analyze route that is not a success (status
    200, body a results object) carries such an envelope, of type
    validation_error with status 400 or of type processing_error with
    status 400 or 500. *)
Theorem error_envelope_shape :
  (∀ ty code msg : string,
     ∃ e : pydict,
       format_error_response ty code msg = JObj {[ "error" := JObj e ]}
       ∧ dom e = ENVELOPE_KEYS
       ∧ e !! "type" = Some (JStr ty)
       ∧ e !! "code" = Some (JStr code)
       ∧ e !! "message" = Some (JStr msg)
       ∧ e !! "details" = Some (JObj ∅))
  ∧ (∀ (remote : option pydict → pydict → res sdk_response) request,
       ∃ r, outcome (analyze remote request) = inr r
            ∧ (success_answer r ∨ error_answer r)).
Proof.
  split.
  - intros ty code msg. eexists. split; [reflexivity|].
    repeat split; reflexivity.
  - intros remote request. apply analyze_answers.
Qed.

(** * Further properties of the code *)

(** ** Exceptions inside the [try] block of [analyze] *)

Section BeforeTheCall.

Variable remote : option pydict → pydict → res sdk_response.

Lemma analyze_get_json_raises request e :
  is_json request = true → get_json request = inl e →
  analyze remote request = (except_trace e, inr (processing_error_response e)).
Proof.
  intros Hj Hb. unfold analyze, analyze_try. rewrite Hj, Hb. cbn [negb].
  rewrite bind_lift_raise, try_except_raise, analyze_except_eq. reflexivity.
Qed.

Lemma analyze_validate_raises request body e :
  json_request request body → validate_text_input body = inl e →
  analyze remote request = (except_trace e, inr (processing_error_response e)).
Proof.
  intros [Hj Hb] Hv. unfold analyze, analyze_try. rewrite Hj, Hb. cbn [negb].
  rewrite bind_lift_ok, Hv, bind_lift_raise, try_except_raise, analyze_except_eq.
  reflexivity.
Qed.

End BeforeTheCall.

(** The exceptions validation can raise: the body has no [get], or the one
    given value has no [startswith] or no [strip]. *)
Lemma validate_text_input_raises_cases (body : json) (e : exn) :
  validate_text_input body = inl e ↔
    ((∀ d, body ≠ JObj d) ∧ e = AttributeError body "get")
    ∨ (∃ d, body = JObj d ∧ given d "url" = true ∧ given d "text" = false
            ∧ is_str (field d "url") = false
            ∧ e = AttributeError (field d "url") "startswith")
    ∨ (∃ d, body = JObj d ∧ given d "text" = true ∧ given d "url" = false
            ∧ is_str (field d "text") = false
            ∧ e = AttributeError (field d "text") "strip").
Proof.
  split.
  - destruct body as [| | | | | |d];
      try (intros [= <-]; left; split; [intros d; discriminate|reflexivity]).
    intros H. right.
    destruct (given d "text") eqn:Ht, (given d "url") eqn:Hu.
    + by rewrite validate_both in H.
    + right. exists d. rewrite validate_text_only in H by done.
      destruct (field d "text") as [| | | |s| |];
        try (injection H as <-; done).
      by destruct (PyStr.nonempty (PyStr.strip s)).
    + left. exists d. rewrite validate_url_only in H by done.
      destruct (field d "url") as [| | | |u| |];
        try (injection H as <-; done).
      by destruct (PyStr.startswith_any SCHEMES u).
    + by rewrite validate_neither in H.
  - intros [[Hd ->]|[(d & -> & Hu & Ht & Hs & ->)|(d & -> & Ht & Hu & Hs & ->)]].
    + by apply validate_text_input_not_dict.
    + rewrite validate_url_only by done.
      by destruct (field d "url").
    + rewrite validate_text_only by done.
      by destruct (field d "text").
Qed.

(** X1: validation raises exactly in three cases, each time an
    AttributeError that names the Python type of the offending value: the
    body is not an object, or the only given field is a url that is not a
    string, or the only given field is a text that is not a string.  Two
    given fields never raise, whatever their types. *)
Theorem validation_raises_exactly_when (body : json) (e : exn) :
  (validate_text_input body = inl e ↔
     ((∀ d, body ≠ JObj d) ∧ e = AttributeError body "get")
     ∨ (∃ d, body = JObj d ∧ given d "url" = true ∧ given d "text" = false
             ∧ is_str (field d "url") = false
             ∧ e = AttributeError (field d "url") "startswith")
     ∨ (∃ d, body = JObj d ∧ given d "text" = true ∧ given d "url" = false
             ∧ is_str (field d "text") = false
             ∧ e = AttributeError (field d "text") "strip"))
  ∧ (∀ d, body = JObj d → given d "text" = true → given d "url" = true →
       validate_text_input body = inr (None, Some MSG_BOTH)).
Proof.
  split; [apply validate_text_input_raises_cases|].
  intros d -> Ht Hu. by apply validate_both.
Qed.

(** No message of such an AttributeError holds one of the three needles. *)
Lemma attribute_error_unclassified (v : json) (attr : string) :
  attr ∈ ["get"; "startswith"; "strip"] →
  classify (AttributeError v attr) = ("INVALID_TEXT", 500%Z).
Proof.
  intros H.
  repeat (apply elem_of_cons in H as [->|H]; [by destruct v|]).
  by apply elem_of_nil in H.
Qed.

Lemma validate_raises_unclassified (body : json) (e : exn) :
  validate_text_input body = inl e → classify e = ("INVALID_TEXT", 500%Z).
Proof.
  intros H. apply validate_text_input_raises_cases in H
    as [[_ ->]|[(d & _ & _ & _ & _ & ->)|(d & _ & _ & _ & _ & ->)]];
    apply attribute_error_unclassified;
    repeat first [ apply list_elem_of_here | apply list_elem_of_further ].
Qed.

(** X2: a JSON body on which validation raises (a body that is not an
    object, or a lone given field that is not a string) is answered 500
    with a processing_error envelope, code INVALID_TEXT and the fixed
    message; the remote service is not called. *)
Theorem malformed_body_is_processing_error
    (remote : option pydict → pydict → res sdk_response) request body e :
  json_request request body →
  validate_text_input body = inl e →
  analyze remote request =
    (except_trace e,
     inr (Response
            (format_error_response "processing_error" "INVALID_TEXT"
               "Text processing failed")
            500))
  ∧ count_calls (trace (analyze remote request)) = 0.
Proof.
  intros Hreq Hv.
  rewrite (analyze_validate_raises remote request body e Hreq Hv).
  unfold processing_error_response.
  rewrite (validate_raises_unclassified body e Hv). split; reflexivity.
Qed.

Lemma malformed_body_is_processing_error_witness :
  json_request array_request (JList [])
  ∧ analyze (faulting unrelated_fault) array_request =
      ([EvPrint "Text Intelligence Error: 'list' object has no attribute 'get'";
        EvTraceback],
       inr (Response
              (format_error_response "processing_error" "INVALID_TEXT"
                 "Text processing failed")
              500)).
Proof.
  split; [by split|].
  exact (proj1 (malformed_body_is_processing_error (faulting unrelated_fault)
                  array_request (JList []) (AttributeError (JList []) "get")
                  (conj eq_refl eq_refl) eq_refl)).
Defined.

(** X3: a request that announces JSON and whose body does not parse is not
    a validation error: the exception of [get_json] reaches the [except]
    block, which prints it and answers with the processing_error envelope
    chosen from its message; the remote service is not called. *)
Theorem unparsable_json_is_processing_error
    (remote : option pydict → pydict → res sdk_response) request e :
  is_json request = true →
  get_json request = inl e →
  analyze remote request = (except_trace e, inr (processing_error_response e))
  ∧ count_calls (trace (analyze remote request)) = 0
  ∧ envelope_field (processing_error_response e).(body) "type" =
      Some (JStr "processing_error").
Proof.
  intros Hj Hb. rewrite (analyze_get_json_raises remote request e Hj Hb).
  repeat split.
Qed.

Lemma unparsable_json_is_processing_error_witness :
  outcome (analyze (faulting unrelated_fault) (Request true (inl bad_request) []))
  = inr (Response
           (format_error_response "processing_error" "INVALID_TEXT"
              "Text processing failed")
           500).
Proof.
  exact (f_equal snd
           (proj1 (unparsable_json_is_processing_error
                     (faulting unrelated_fault)
                     (Request true (inl bad_request) []) bad_request
                     eq_refl eq_refl))).
Defined.

(** ** Every run of [analyze] *)

Section EveryRun.

Variable remote : option pydict → pydict → res sdk_response.

(** The message of a refusal comes from a fixed list. *)
Lemma fixed_validation_message (m : string) :
  m ∈ validation_messages → m ∈ FIXED_MESSAGES.
Proof.
  unfold validation_messages, FIXED_MESSAGES. intros H.
  repeat (apply elem_of_cons in H as [->|H];
          [repeat first [ apply list_elem_of_here | apply list_elem_of_further ]|]).
  by apply elem_of_nil in H.
Qed.

(** The runs of the handler: refused, raised before the call, or called. *)
Lemma analyze_cases request :
  (∃ code msg, msg ∈ FIXED_MESSAGES
     ∧ analyze remote request = validation_error_response code msg)
  ∨ (∃ e, analyze remote request =
            (except_trace e, inr (processing_error_response e)))
  ∨ (∃ body rd o,
       json_request request body
       ∧ validate_text_input body = inr (Some rd, None)
       ∧ build_deepgram_options (args request) = (Some o, None)
       ∧ analyze remote request =
           match remote (Some rd) o with
           | inl e =>
               (EvRemoteCall (Some rd) o :: except_trace e,
                inr (processing_error_response e))
           | inr response_data =>
               match format_result response_data with
               | inl e =>
                   (EvRemoteCall (Some rd) o :: except_trace e,
                    inr (processing_error_response e))
               | inr result =>
                   ([EvRemoteCall (Some rd) o], inr (Response result 200))
               end
           end).
Proof.
  destruct (is_json request) eqn:Hj.
  2: { left. exists "INVALID_TEXT", "Request body must be JSON".
       split; [apply list_elem_of_here|]. by apply analyze_not_json. }
  destruct (get_json request) as [e|body] eqn:Hb.
  { right; left. exists e. by apply analyze_get_json_raises. }
  assert (Hreq : json_request request body) by done.
  destruct (validate_text_input body) as [e|[rd msg]] eqn:Hv.
  { right; left. exists e. by apply (analyze_validate_raises remote _ body). }
  destruct (validate_text_input_shape _ _ _ Hv)
    as [(r & -> & ->)|(m & -> & -> & Hm)].
  2: { left. do 2 eexists. split; [by apply fixed_validation_message|].
       by apply (analyze_validation_error remote _ body None m). }
  destruct (build_deepgram_options_shape (args request)) as [[o Ho]|Ho].
  2: { left. exists "INVALID_TEXT", MSG_V1. split.
       - unfold FIXED_MESSAGES.
         repeat first [ apply list_elem_of_here | apply list_elem_of_further ].
       - by apply (analyze_options_error remote _ body (Some r) None MSG_V1). }
  right; right. exists body, r, o. repeat (split; [done|]).
  rewrite (analyze_reaches_remote remote request body (Some r) o Hreq Hv Ho).
  destruct (remote (Some r) o) as [e|resp];
    [by rewrite analyze_except_eq|].
  destruct (format_result resp) as [e|result];
    [by rewrite analyze_except_eq|done].
Qed.

End EveryRun.

(** X4: the handler never calls the remote service twice, and a call it
    makes is the first thing it does.  It calls exactly when the body is
    JSON, validation returns a request and option mapping returns options;
    the call is then given that request and those options. *)
Theorem at_most_one_remote_call
    (remote : option pydict → pydict → res sdk_response) request :
  (count_calls (trace (analyze remote request)) ≤ 1)%nat
  ∧ (count_calls (trace (analyze remote request)) = 1 ↔
       ∃ body rd o,
         json_request request body
         ∧ validate_text_input body = inr (Some rd, None)
         ∧ build_deepgram_options (args request) = (Some o, None))
  ∧ (∀ body rd o,
       json_request request body →
       validate_text_input body = inr (Some rd, None) →
       build_deepgram_options (args request) = (Some o, None) →
       ∃ rest, trace (analyze remote request) = EvRemoteCall (Some rd) o :: rest
               ∧ count_calls rest = 0).
Proof.
  assert (Hcalled : ∀ body rd o,
            json_request request body →
            validate_text_input body = inr (Some rd, None) →
            build_deepgram_options (args request) = (Some o, None) →
            ∃ rest,
              trace (analyze remote request) = EvRemoteCall (Some rd) o :: rest
              ∧ count_calls rest = 0).
  { intros body rd o Hreq Hv Ho.
    rewrite (analyze_reaches_remote remote request body (Some rd) o Hreq Hv Ho).
    destruct (remote (Some rd) o) as [e|resp];
      [rewrite analyze_except_eq; by eexists|].
    destruct (format_result resp) as [e|result];
      [rewrite analyze_except_eq; by eexists|by eexists]. }
  cut ((count_calls (trace (analyze remote request)) ≤ 1)%nat
       ∧ (count_calls (trace (analyze remote request)) = 1 ↔
            ∃ body rd o,
              json_request request body
              ∧ validate_text_input body = inr (Some rd, None)
              ∧ build_deepgram_options (args request) = (Some o, None))).
  { intros [H1 H2]. split; [exact H1|]. split; [exact H2|exact Hcalled]. }
  destruct (analyze_cases remote request)
    as [(code & msg & _ & H)|[(e & H)|(body & rd & o & Hreq & Hv & Ho & _)]].
  - split; [rewrite H; cbn; lia|].
    split; [rewrite H; discriminate|].
    intros (body & rd & o & Hreq & Hv & Ho).
    destruct (Hcalled body rd o Hreq Hv Ho) as (rest & Ht & _).
    rewrite H in Ht. discriminate.
  - split; [rewrite H; cbn; lia|].
    split; [rewrite H; discriminate|].
    intros (body & rd & o & Hreq & Hv & Ho).
    destruct (Hcalled body rd o Hreq Hv Ho) as (rest & Ht & _).
    rewrite H in Ht. discriminate.
  - destruct (Hcalled body rd o Hreq Hv Ho) as (rest & Ht & Hc).
    assert (Hone : count_calls (trace (analyze remote request)) = 1).
    { rewrite Ht. unfold count_calls in *. cbn. by rewrite Hc. }
    rewrite Hone. split; [lia|].
    split; [|done]. intros _. by exists body, rd, o.
Qed.

(** ** The success branch *)

(** X5: when the remote service returns and its answer can be brought into
    shape, the handler answers 200 with that result, a JSON object whose
    only key is results; all it did is the one call, given the request
    validation produced and the options the mapper produced. *)
Theorem successful_analysis
    (remote : option pydict → pydict → res sdk_response)
    request body rd o response_data result :
  json_request request body →
  validate_text_input body = inr (Some rd, None) →
  build_deepgram_options (args request) = (Some o, None) →
  remote (Some rd) o = inr response_data →
  format_result response_data = inr result →
  analyze remote request =
    ([EvRemoteCall (Some rd) o], inr (Response result 200))
  ∧ ∃ results : json,
      result = JObj {[ "results" := results ]}
      ∧ body_field result "results" = Some results.
Proof.
  intros Hreq Hv Ho Hr Hf.
  rewrite (analyze_reaches_remote remote request body (Some rd) o Hreq Hv Ho).
  rewrite Hr, Hf. split; [reflexivity|].
  destruct (format_result_shape _ _ Hf) as [results ->].
  exists results. split; [reflexivity|]. apply lookup_singleton_eq.
Qed.

Lemma successful_analysis_witness :
  analyze (returning (sdk_v5 summary_results))
    (hello_request [("summarize", "true")]) =
    ([EvRemoteCall (Some {[ "text" := JStr "hello" ]})
        {[ "language" := JStr "en"; "summarize" := JBool true ]}],
     inr (Response (JObj {[ "results" := summary_results ]}) 200)).
Proof.
  exact (proj1 (successful_analysis (returning (sdk_v5 summary_results))
                  (hello_request [("summarize", "true")])
                  (JObj {[ "text" := JStr "hello" ]})
                  {[ "text" := JStr "hello" ]}
                  {[ "language" := JStr "en"; "summarize" := JBool true ]}
                  (sdk_v5 summary_results)
                  (JObj {[ "results" := summary_results ]})
                  (conj eq_refl eq_refl) eq_refl eq_refl eq_refl eq_refl)).
Defined.

(** X6: bringing the SDK object into shape.  Whatever comes out is an
    object with the single key results.  An object with [to_dict] whose
    results lack [to_dict] gives empty results, whatever [model_dump] or
    [dict(results)] would have given; the same object without a results
    attribute raises.  A [model_dump] without the key results gives empty
    results, while a null stored under results is kept.  An object with
    none of [to_dict], [model_dump], results gives empty results. *)
Theorem result_normalisation (response_data : sdk_response) :
  (∀ result, format_result response_data = inr result →
     ∃ results : json,
       result = JObj {[ "results" := results ]}
       ∧ ∀ key, body_field result key =
                  if decide (key = "results") then Some results else None)
  ∧ (resp_to_dict response_data = true →
       (∀ rs, resp_results response_data = Some rs →
              results_to_dict rs = None →
              format_result response_data =
                inr (JObj {[ "results" := JObj ∅ ]}))
       ∧ (resp_results response_data = None →
            format_result response_data =
              inl (attribute_error (resp_class response_data) "results")))
  ∧ (resp_to_dict response_data = false →
       (∀ dump : pydict,
          resp_model_dump response_data = Some (inr (JObj dump)) →
          format_result response_data =
            inr (JObj {[ "results" := default (JObj ∅) (dump !! "results") ]}))
       ∧ (resp_model_dump response_data = None →
          resp_results response_data = None →
          format_result response_data = inr (JObj {[ "results" := JObj ∅ ]}))).
Proof.
  split; [|split].
  - intros result H. destruct (format_result_shape _ _ H) as [results ->].
    exists results. split; [reflexivity|]. intros key. cbn [body_field].
    destruct (decide (key = "results")) as [->|Hk].
    + apply lookup_singleton_eq.
    + by apply lookup_singleton_ne.
  - intros Ht. unfold format_result. rewrite Ht. split.
    + intros rs -> ->. reflexivity.
    + intros ->. reflexivity.
  - intros Ht. unfold format_result. rewrite Ht. split.
    + intros dump ->. reflexivity.
    + intros -> ->. reflexivity.
Qed.

(** X7: a failure while the remote answer is brought into shape is
    reported like a fault of the remote call, after the call was made: the
    handler prints it and answers with the processing_error envelope chosen
    from its message. *)
Theorem formatting_failure_is_processing_error
    (remote : option pydict → pydict → res sdk_response)
    request body rd o response_data e :
  json_request request body →
  validate_text_input body = inr (Some rd, None) →
  build_deepgram_options (args request) = (Some o, None) →
  remote (Some rd) o = inr response_data →
  format_result response_data = inl e →
  analyze remote request =
    (EvRemoteCall (Some rd) o :: except_trace e,
     inr (processing_error_response e)).
Proof.
  intros Hreq Hv Ho Hr Hf.
  rewrite (analyze_reaches_remote remote request body (Some rd) o Hreq Hv Ho).
  rewrite Hr, Hf, analyze_except_eq. reflexivity.
Qed.

(** The class name holds the needle text: the client is told 400
    INVALID_TEXT about a request the remote service accepted. *)
Lemma formatting_failure_is_processing_error_witness :
  analyze (returning sdk_without_results) (hello_request []) =
    ([EvRemoteCall (Some {[ "text" := JStr "hello" ]})
        {[ "language" := JStr "en" ]};
      EvPrint "Text Intelligence Error: 'AnalyzeTextResponse' object has no attribute 'results'";
      EvTraceback],
     inr (Response
            (format_error_response "processing_error" "INVALID_TEXT"
               "'AnalyzeTextResponse' object has no attribute 'results'")
            400)).
Proof.
  exact (formatting_failure_is_processing_error
           (returning sdk_without_results) (hello_request [])
           (JObj {[ "text" := JStr "hello" ]})
           {[ "text" := JStr "hello" ]} {[ "language" := JStr "en" ]}
           sdk_without_results
           (attribute_error "AnalyzeTextResponse" "results")
           (conj eq_refl eq_refl) eq_refl eq_refl eq_refl eq_refl).
Defined.

(** ** What a refusal tells the client *)

(** X8: a validation_error envelope never repeats anything the client
    sent: whenever the handler answers with one, the status is 400, the
    message is one of six fixed texts, and the handler has done nothing
    else (no print, no remote call). *)
Theorem validation_errors_carry_fixed_messages
    (remote : option pydict → pydict → res sdk_response) request r :
  outcome (analyze remote request) = inr r →
  envelope_field (body r) "type" = Some (JStr "validation_error") →
  status r = 400%Z
  ∧ trace (analyze remote request) = []
  ∧ ∃ msg, msg ∈ FIXED_MESSAGES
           ∧ envelope_field (body r) "message" = Some (JStr msg).
Proof.
  intros Hr Hty.
  destruct (analyze_cases remote request)
    as [(code & msg & Hm & H)|[(e & H)|(b & rd & o & _ & _ & _ & H)]];
    rewrite H in Hr |- *.
  - injection Hr as <-. split; [done|]. split; [done|].
    exists msg. split; [done|]. apply envelope_message.
  - injection Hr as <-. unfold processing_error_response in Hty.
    cbn [body] in Hty. rewrite envelope_type in Hty. discriminate.
  - destruct (remote (Some rd) o) as [e|resp].
    { injection Hr as <-. unfold processing_error_response in Hty.
      cbn [body] in Hty. rewrite envelope_type in Hty. discriminate. }
    destruct (format_result resp) as [e|result] eqn:Hf.
    { injection Hr as <-. unfold processing_error_response in Hty.
      cbn [body] in Hty. rewrite envelope_type in Hty. discriminate. }
    injection Hr as <-. destruct (format_result_shape _ _ Hf) as [x ->].
    cbn [body envelope_field] in Hty.
    rewrite lookup_singleton_ne in Hty by done. discriminate.
Qed.

Lemma validation_errors_carry_fixed_messages_witness :
  status (Response
            (format_error_response "validation_error" "INVALID_TEXT" MSG_V1) 400)
    = 400%Z
  ∧ trace (analyze (faulting unrelated_fault)
             (hello_request [("summarize", "v1")])) = [].
Proof.
  exact ((λ H, conj (proj1 H) (proj1 (proj2 H)))
           (validation_errors_carry_fixed_messages (faulting unrelated_fault)
              (hello_request [("summarize", "v1")])
              (Response
                 (format_error_response "validation_error" "INVALID_TEXT" MSG_V1)
                 400)
              eq_refl eq_refl)).
Defined.

(** X9: the body is judged before the query.  When validation returns a
    message for the body, the answer is the same whatever the query
    parameters and whatever the remote service would do: a body error
    hides a deprecated summarize value. *)
Theorem body_errors_come_first
    (remote1 remote2 : option pydict → pydict → res sdk_response)
    (body : json) rd (msg : string) (q1 q2 : query) :
  validate_text_input body = inr (rd, Some msg) →
  analyze remote1 (Request true (inr body) q1) =
    analyze remote2 (Request true (inr body) q2)
  ∧ ∃ code, outcome (analyze remote1 (Request true (inr body) q1)) =
              inr (Response
                     (format_error_response "validation_error" code msg) 400).
Proof.
  intros Hv.
  rewrite (analyze_validation_error remote1 (Request true (inr body) q1)
             body rd msg (conj eq_refl eq_refl) Hv).
  rewrite (analyze_validation_error remote2 (Request true (inr body) q2)
             body rd msg (conj eq_refl eq_refl) Hv).
  split; [reflexivity|]. by eexists.
Qed.

Lemma body_errors_come_first_witness :
  analyze (faulting unrelated_fault)
    (Request true (inr (JObj ∅)) [("summarize", "v1")]) =
  analyze (returning sdk_without_results) (Request true (inr (JObj ∅)) []).
Proof.
  exact (proj1 (body_errors_come_first (faulting unrelated_fault)
                  (returning sdk_without_results) (JObj ∅) None MSG_NEITHER
                  [("summarize", "v1")] [] eq_refl)).
Defined.

(** ** Blank text and url schemes *)

(** X10: a text given alone is refused exactly when every one of its
    characters is white space (TAB..CR, FS..US, SPACE, NEL, NBSP);
    otherwise it is accepted and passed on as it was sent, the white
    space around it included. *)
Theorem blank_text_is_refused (d : pydict) (s : string) :
  given d "url" = false → field d "text" = JStr s → s ≠ "" →
  validate_text_input (JObj d) =
    if PyStr.all_space s then inr (None, Some MSG_EMPTY_TEXT)
    else inr (Some {[ "text" := JStr s ]}, None).
Proof.
  intros Hu Ht Hs.
  assert (Hg : given d "text" = true).
  { unfold given. rewrite Ht. by apply nonempty_true. }
  rewrite validate_text_only, Ht by done.
  destruct (PyStr.all_space s) eqn:Ha.
  - apply strip_empty in Ha. by rewrite Ha.
  - destruct (PyStr.nonempty (PyStr.strip s)) eqn:Hn; [done|].
    assert (PyStr.strip s = "") as Hz by (by destruct (PyStr.strip s)).
    apply strip_empty in Hz. congruence.
Qed.

Lemma blank_text_is_refused_witness :
  validate_text_input (JObj {[ "text" := JStr "  padded  " ]}) =
    inr (Some {[ "text" := JStr "  padded  " ]}, None).
Proof.
  exact (blank_text_is_refused {[ "text" := JStr "  padded  " ]} "  padded  "
           eq_refl eq_refl (λ H, eq_ind "  padded  "
              (λ s, match s with EmptyString => False | _ => True end) I "" H)).
Defined.

Lemma startswith_spec (p s : string) :
  PyStr.startswith p s = true ↔ ∃ rest, s = p +:+ rest.
Proof.
  revert s. induction p as [|a p IH]; intros s; cbn [PyStr.startswith].
  - split; [intros _; by exists s|done].
  - destruct s as [|b s]; [split; [done|intros [rest [=]]]|].
    destruct (decide (a = b)) as [->|Hab].
    + rewrite IH. split; intros [rest H]; exists rest.
      * cbn. by rewrite H.
      * cbn in H. by injection H.
    + split; [done|]. intros [rest H]. cbn in H. injection H as H _. done.
Qed.

(** X11: a url given alone is accepted exactly when it is [http://] or
    [https://] followed by anything, nothing included; the scheme is
    compared as written, so an upper-case scheme is refused.  An accepted
    url is passed on as it was sent. *)
Theorem url_scheme_is_a_prefix_test (d : pydict) (u : string) :
  given d "text" = false → field d "url" = JStr u → u ≠ "" →
  ((∃ rest, u = "http://" +:+ rest ∨ u = "https://" +:+ rest) →
     validate_text_input (JObj d) = inr (Some {[ "url" := JStr u ]}, None))
  ∧ (¬ (∃ rest, u = "http://" +:+ rest ∨ u = "https://" +:+ rest) →
     validate_text_input (JObj d) = inr (None, Some MSG_URL_FORMAT)).
Proof.
  intros Ht Hu Hne.
  assert (Hg : given d "url" = true).
  { unfold given. rewrite Hu. by apply nonempty_true. }
  rewrite validate_url_only, Hu by done.
  assert (Hspec : PyStr.startswith_any SCHEMES u = true ↔
                  ∃ rest, u = "http://" +:+ rest ∨ u = "https://" +:+ rest).
  { unfold PyStr.startswith_any, SCHEMES. cbn [existsb].
    rewrite orb_false_r, orb_true_iff, !startswith_spec.
    split.
    - intros [[rest H]|[rest H]]; exists rest; auto.
    - intros [rest [H|H]]; [left|right]; by exists rest. }
  split.
  - intros H. apply Hspec in H. by rewrite H.
  - intros H. destruct (PyStr.startswith_any SCHEMES u); [|done].
    destruct H. by apply Hspec.
Qed.

Lemma url_scheme_is_a_prefix_test_witness :
  validate_text_input (JObj {[ "url" := JStr "HTTP://example.com" ]}) =
    inr (None, Some MSG_URL_FORMAT)
  ∧ validate_text_input (JObj {[ "url" := JStr "http://" ]}) =
      inr (Some {[ "url" := JStr "http://" ]}, None).
Proof.
  split.
  - refine (proj2 (url_scheme_is_a_prefix_test
                     {[ "url" := JStr "HTTP://example.com" ]}
                     "HTTP://example.com" _ _ _) _);
      [reflexivity|reflexivity|discriminate|].
    intros [rest [H|H]]; discriminate.
  - refine (proj1 (url_scheme_is_a_prefix_test
                     {[ "url" := JStr "http://" ]} "http://" _ _ _) _);
      [reflexivity|reflexivity|discriminate|].
    exists "". by left.
Defined.

(** ** Answers by status *)

Lemma classify_500 (e : exn) :
  (classify e).2 = 500%Z →
  processing_error_response e =
    Response
      (format_error_response "processing_error" "INVALID_TEXT"
         "Text processing failed")
      500.
Proof.
  unfold processing_error_response. rewrite classify_cases. cbv zeta.
  repeat case_match; cbn [fst snd]; try discriminate. reflexivity.
Qed.

(** X12: in every run of the handler, an answer with status 500 is the one
    fixed envelope (processing_error, INVALID_TEXT, [Text processing
    failed]): no text of any exception, wherever it was raised, reaches a
    500 answer.  And an answer with status 200 is given only after the
    remote service was called and returned, and carries what its answer was
    brought to. *)
Theorem answers_by_status
    (remote : option pydict → pydict → res sdk_response) request r :
  outcome (analyze remote request) = inr r →
  (status r = 500%Z →
     body r = format_error_response "processing_error" "INVALID_TEXT"
                "Text processing failed")
  ∧ (status r = 200%Z →
       ∃ b rd o response_data,
         json_request request b
         ∧ validate_text_input b = inr (Some rd, None)
         ∧ build_deepgram_options (args request) = (Some o, None)
         ∧ remote (Some rd) o = inr response_data
         ∧ format_result response_data = inr (body r)
         ∧ trace (analyze remote request) = [EvRemoteCall (Some rd) o]).
Proof.
  intros Hr.
  assert (Hproc : ∀ e, r = processing_error_response e →
            (status r = 500%Z →
               body r = format_error_response "processing_error" "INVALID_TEXT"
                          "Text processing failed")
            ∧ status r ≠ 200%Z).
  { intros e ->. split.
    - intros H. cbn [status processing_error_response] in H.
      by rewrite (classify_500 e H).
    - cbn [status processing_error_response].
      destruct (classify_status e) as [H|H]; rewrite H; discriminate. }
  destruct (analyze_cases remote request)
    as [(code & msg & Hm & H)|[(e & H)|(b & rd & o & Hreq & Hv & Ho & H)]].
  - rewrite H in Hr. injection Hr as <-. split; discriminate.
  - rewrite H in Hr. injection Hr as Hr. symmetry in Hr.
    destruct (Hproc e Hr) as [H5 H2]. split; [exact H5|]. intros; done.
  - destruct (remote (Some rd) o) as [e|resp] eqn:Hrem.
    { rewrite H in Hr. injection Hr as Hr. symmetry in Hr.
      destruct (Hproc e Hr) as [H5 H2]. split; [exact H5|]. intros; done. }
    destruct (format_result resp) as [e|result] eqn:Hf.
    { rewrite H in Hr. injection Hr as Hr. symmetry in Hr.
      destruct (Hproc e Hr) as [H5 H2]. split; [exact H5|]. intros; done. }
    rewrite H in Hr |- *. injection Hr as <-. split; [discriminate|].
    intros _. exists b, rd, o, resp. repeat (split; [done|]). reflexivity.
Qed.

Lemma answers_by_status_witness :
  body (Response
          (format_error_response "processing_error" "INVALID_TEXT"
             "Text processing failed") 500) =
    format_error_response "processing_error" "INVALID_TEXT"
      "Text processing failed".
Proof.
  exact (proj1 (answers_by_status (faulting unrelated_fault) array_request
                  (Response
                     (format_error_response "processing_error" "INVALID_TEXT"
                        "Text processing failed") 500)
                  eq_refl) eq_refl).
Defined.

(** ** The metadata route *)

Section Metadata.

Variable open_toml : res string.
Variable toml_load : string → res pydict.

Lemma get_metadata_read :
  get_metadata open_toml toml_load =
    match read_config open_toml toml_load with
    | inr config =>
        match config !! "meta" with
        | Some meta => ([], inr (Response meta 200))
        | None =>
            ([], inr (Response
                        (metadata_error "Missing [meta] section in deepgram.toml")
                        500))
        end
    | inl e =>
        if decide (exn_class e = "FileNotFoundError") then
          ([], inr (Response (metadata_error "deepgram.toml file not found") 500))
        else
          ([EvPrint ("Error reading metadata: " +:+ exn_str e)],
           inr (Response
                  (metadata_error
                     ("Failed to read metadata from deepgram.toml: "
                      +:+ exn_str e))
                  500))
    end.
Proof.
  unfold get_metadata, get_metadata_try, read_config.
  destruct open_toml as [e|content].
  - rewrite bind_lift_raise, try_except_raise. cbn [mbind res_bind].
    unfold get_metadata_except. by case_decide.
  - rewrite bind_lift_ok. cbn [mbind res_bind].
    destruct (toml_load content) as [e|config].
    + rewrite bind_lift_raise, try_except_raise.
      unfold get_metadata_except. by case_decide.
    + rewrite bind_lift_ok. by destruct (config !! "meta").
Qed.

End Metadata.

(** X13: the metadata route always answers, whatever happens to the file:
    with 200 and the meta entry when the file was read and has one, and
    otherwise with 500 and a body of exactly the two fields error =
    INTERNAL_SERVER_ERROR and message.  It never calls the remote
    service. *)
Theorem metadata_always_answers
    (open_toml : res string) (toml_load : string → res pydict) :
  ∃ r,
    outcome (get_metadata open_toml toml_load) = inr r
    ∧ (status r = 200%Z
         ∧ (∃ config, read_config open_toml toml_load = inr config
                      ∧ config !! "meta" = Some (body r))
       ∨ status r = 500%Z
         ∧ (∃ message,
              body r = JObj {[ "error" := JStr "INTERNAL_SERVER_ERROR";
                               "message" := JStr message ]})
         ∧ ¬ (∃ config meta, read_config open_toml toml_load = inr config
                             ∧ config !! "meta" = Some meta))
    ∧ count_calls (trace (get_metadata open_toml toml_load)) = 0.
Proof.
  rewrite get_metadata_read.
  destruct (read_config open_toml toml_load) as [e|config].
  - case_decide; eexists; (split; [reflexivity|]); (split; [|reflexivity]);
      right; (split; [reflexivity|]); (split; [by eexists|]);
      intros (c & m & [=] & _).
  - destruct (config !! "meta") as [meta|] eqn:Hm;
      eexists; (split; [reflexivity|]); (split; [|reflexivity]).
    + left. split; [reflexivity|]. by exists config.
    + right. split; [reflexivity|]. split; [by eexists|].
      intros (c & m & [= <-] & H). congruence.
Qed.

(** X14: a failure to read the configuration that is not a missing file
    (the file cannot be opened, or does not parse) is printed once and
    answered 500 with a message that ends with the text of the exception;
    a missing file is answered without printing. *)
Theorem metadata_read_failure
    (open_toml : res string) (toml_load : string → res pydict) (e : exn) :
  read_config open_toml toml_load = inl e →
  get_metadata open_toml toml_load =
    if decide (exn_class e = "FileNotFoundError") then
      ([], inr (Response (metadata_error "deepgram.toml file not found") 500))
    else
      ([EvPrint ("Error reading metadata: " +:+ exn_str e)],
       inr (Response
              (metadata_error
                 ("Failed to read metadata from deepgram.toml: " +:+ exn_str e))
              500)).
Proof. intros H. by rewrite get_metadata_read, H. Qed.

Lemma metadata_read_failure_witness :
  get_metadata (inr "meta = ") (refusing_parser "Empty value is invalid") =
    ([EvPrint "Error reading metadata: Empty value is invalid"],
     inr (Response
            (metadata_error
               "Failed to read metadata from deepgram.toml: Empty value is invalid")
            500)).
Proof.
  exact (metadata_read_failure (inr "meta = ")
           (refusing_parser "Empty value is invalid")
           (Exn "TomlDecodeError" "Empty value is invalid") eq_refl).
Defined.

(** ** Start-up *)

(** X15: [load_api_key] returns the value of DEEPGRAM_API_KEY, printing
    nothing, exactly when the variable is set to a non-empty string; when
    it is unset or set to the empty string it prints its seven help texts
    and raises the ValueError that stops the start-up. *)
Theorem api_key_is_required (env : environ) :
  (∀ out k, load_api_key env = (out, inr k) ↔
            out = [] ∧ env !! "DEEPGRAM_API_KEY" = Some k ∧ k ≠ "")
  ∧ (∀ out e, load_api_key env = (out, inl e) ↔
              out = API_KEY_HELP ∧ e = API_KEY_REQUIRED
              ∧ (env !! "DEEPGRAM_API_KEY" = None
                 ∨ env !! "DEEPGRAM_API_KEY" = Some ""))
  ∧ length API_KEY_HELP = 7.
Proof.
  unfold load_api_key. split; [|split; [|reflexivity]].
  - intros out k. destruct (env !! "DEEPGRAM_API_KEY") as [[|a s]|]; cbn.
    + split; [discriminate|]. by intros (_ & [= <-] & ?).
    + split.
      * by intros [= <- <-].
      * by intros (-> & [= <-] & _).
    + split; [discriminate|]. by intros (_ & [=] & _).
  - intros out e. destruct (env !! "DEEPGRAM_API_KEY") as [[|a s]|]; cbn.
    + split.
      * intros [= <- <-]. auto.
      * by intros (-> & -> & _).
    + split; [discriminate|]. by intros (_ & _ & [[=]|[=]]).
    + split.
      * intros [= <- <-]. auto.
      * by intros (-> & -> & _).
Qed.

(** ** The needle text, wherever and however it is written *)

Lemma lower_app (a b : string) :
  PyStr.lower (a +:+ b) = PyStr.lower a +:+ PyStr.lower b.
Proof.
  induction a as [|c a IH]; [done|].
  change (String (PyStr.lower_char c) (PyStr.lower (a +:+ b)) =
          String (PyStr.lower_char c) (PyStr.lower a +:+ PyStr.lower b)).
  by rewrite IH.
Qed.

Lemma startswith_app (p rest : string) : PyStr.startswith p (p +:+ rest) = true.
Proof. apply startswith_spec. by exists rest. Qed.

Lemma contains_app (a needle b : string) :
  PyStr.contains needle (a +:+ needle +:+ b) = true.
Proof.
  induction a as [|c a IH].
  - change (PyStr.contains needle (needle +:+ b) = true).
    assert (H := startswith_app needle b).
    destruct (needle +:+ b); cbn [PyStr.contains]; by rewrite H.
  - change (PyStr.startswith needle (String c (a +:+ needle +:+ b))
            || PyStr.contains needle (a +:+ needle +:+ b) = true).
    rewrite IH. apply orb_true_r.
Qed.

(** X16: a fault of the remote call whose message holds the word text
    anywhere, in any mix of upper and lower case, is answered 400 with the
    code INVALID_TEXT and the whole message of the fault, whatever stands
    before and after the word. *)
Theorem any_mention_of_text_is_invalid_text
    (remote : option pydict → pydict → res sdk_response)
    request e (before word after : string) :
  remote_fault remote request e →
  exn_str e = before +:+ word +:+ after →
  PyStr.lower word = "text" →
  outcome (analyze remote request) =
    inr (Response
           (format_error_response "processing_error" "INVALID_TEXT" (exn_str e))
           400).
Proof.
  intros Hf He Hw. rewrite (analyze_remote_fault _ _ _ Hf).
  unfold processing_error_response. rewrite classify_cases. cbv zeta.
  assert (PyStr.contains "text" (PyStr.lower (exn_str e)) = true) as ->.
  { rewrite He, !lower_app, Hw. apply contains_app. }
  reflexivity.
Qed.

Lemma any_mention_of_text_is_invalid_text_witness :
  outcome (analyze (faulting (Exn "ApiError" "CONTEXT window exceeded"))
             (hello_request [])) =
    inr (Response
           (format_error_response "processing_error" "INVALID_TEXT"
              "CONTEXT window exceeded")
           400).
Proof.
  exact (any_mention_of_text_is_invalid_text
           (faulting (Exn "ApiError" "CONTEXT window exceeded"))
           (hello_request []) (Exn "ApiError" "CONTEXT window exceeded")
           "CON" "TEXT" " window exceeded"
           (faulting_hello _) eq_refl eq_refl).
Defined.

(** ** Failures before the remote call *)

(** C5, as the specification words it, does not hold: on the body
    [{"text": 5}] validation fails, by raising, and the answer is 500 with
    a processing_error envelope, not 400 with a validation_error one. *)
Lemma number_as_text_is_a_server_error :
  is_json number_request = true
  ∧ get_json number_request = inr (JObj {[ "text" := JInt 5 ]})
  ∧ validate_text_input (JObj {[ "text" := JInt 5 ]}) =
      inl (AttributeError (JInt 5) "strip")
  ∧ outcome (analyze (faulting unrelated_fault) number_request) =
      inr (Response
             (format_error_response "processing_error" "INVALID_TEXT"
                "Text processing failed")
             500)
  ∧ ¬ (∃ r, outcome (analyze (faulting unrelated_fault) number_request) = inr r
            ∧ status r = 400%Z).
Proof.
  do 3 (split; [reflexivity|]).
  assert (H : outcome (analyze (faulting unrelated_fault) number_request) =
              inr (Response
                     (format_error_response "processing_error" "INVALID_TEXT"
                        "Text processing failed") 500)) by reflexivity.
  split; [exact H|].
  intros (r & Hr & Hs). rewrite H in Hr. injection Hr as <-. discriminate.
Qed.

(** C5 (amended): when input validation or option mapping fails, by a
    message or by raising, the handler never calls the remote service.
    When the failure is a refusal (the body is not announced as JSON,
    validation returns a message, or validation passes and option mapping
    returns a message) the handler does nothing but answer, and answers 400
    with a validation_error envelope. *)
Theorem failed_requests_stay_local
    (remote : option pydict → pydict → res sdk_response) request :
  rejected request ∨ fails_by_raising request →
  count_calls (trace (analyze remote request)) = 0
  ∧ Forall (λ ev, is_remote_call ev = false) (trace (analyze remote request))
  ∧ (rejected request →
       trace (analyze remote request) = []
       ∧ ∃ code msg,
           outcome (analyze remote request) =
             inr (Response
                    (format_error_response "validation_error" code msg) 400)).
Proof.
  intros H.
  assert (Hrej : rejected request →
            trace (analyze remote request) = []
            ∧ ∃ code msg,
                outcome (analyze remote request) =
                  inr (Response
                         (format_error_response "validation_error" code msg)
                         400)).
  { intros Hr.
    destruct (rejected_requests_stay_local remote request Hr) as (Ht & _ & Ho).
    by split. }
  destruct H as [Hr|(Hj & [(e & He)|(body & e & Hb & Hv)])].
  - destruct (Hrej Hr) as [Ht _].
    split; [by rewrite Ht|]. split; [rewrite Ht; constructor|exact Hrej].
  - assert (Ht := analyze_get_json_raises remote request e Hj He).
    split; [by rewrite Ht|]. split; [|exact Hrej].
    rewrite Ht. cbn [trace fst except_trace]. by repeat constructor.
  - assert (Ht := analyze_validate_raises remote request body e
                    (conj Hj Hb) Hv).
    split; [by rewrite Ht|]. split; [|exact Hrej].
    rewrite Ht. cbn [trace fst except_trace]. by repeat constructor.
Qed.

Lemma number_request_fails_by_raising : fails_by_raising number_request.
Proof.
  split; [reflexivity|]. right.
  exists (JObj {[ "text" := JInt 5 ]}), (AttributeError (JInt 5) "strip").
  split; reflexivity.
Defined.

Lemma failed_requests_stay_local_witness :
  fails_by_raising number_request
  ∧ count_calls (trace (analyze (faulting unrelated_fault) number_request)) = 0.
Proof.
  split; [exact number_request_fails_by_raising|].
  exact (proj1 (failed_requests_stay_local (faulting unrelated_fault)
                  number_request (or_intror number_request_fails_by_raising))).
Defined.
